(** * Passkey relying-party backend (backend/server.js)

    A shallow embedding of the Express handlers of [backend/server.js]
    and of the in-memory tables they work on, followed by the properties
    of the ceremony state machine.

    Conventions of the model.
    - A JavaScript string is a Rocq [string] (its UTF-8 bytes), so
      [isoUint8Array.fromUTF8String] is [list_byte_of_string].
    - [db.users], [db.regOptions] and [db.authOptions] are JavaScript
      [Map]s keyed by username: finite maps [gmap string _].  Every user
      object is referenced from [db.users] only, and every passkey
      object is created by an object literal right before it is pushed,
      so no object is shared between two users or two positions of a
      [passkeys] array: in-place mutation is rendered by replacing the
      entry of the map (or of the list).
    - A handler runs from its first statement to its response without
      another request being served in between (requests are handled one
      after the other).
    - The four functions imported from [@simplewebauthn/server] are not
      part of the repository: the handlers are parametric in them
      (class [SimpleWebAuthn]).  A promise that rejects is the
      [Rejected] outcome.  The random bytes a generator draws are an
      explicit argument of the call.
    - [console.log] and [console.error] do not touch the tables and are
      left out.

    Further parts: the [// Config] block of server.js
    ([configFromEnv]), the catch-all route of the variant of server.js
    that serves the built front end ([catch_all]), and the click
    handlers of [frontend/src/App.js] run against the handlers of the
    server ([handleRegister], [handleLogin]). *)

From stdpp Require Import base option list strings gmap pretty.
From Stdlib Require Import NArith Ascii.

Local Open Scope string_scope.

(** ** Data model *)

(** [credentialDeviceType] of the verification library. *)
Inductive CredentialDeviceType := singleDevice | multiDevice.

(** The [WebAuthnCredential] of the library: the [credential] member of
    [registrationInfo], and the [credential] argument of
    [verifyAuthenticationResponse].  [transports] may be undefined. *)
Record WebAuthnCredential := {
  cred_id : string;
  cred_publicKey : list Byte.byte;
  cred_counter : N;
  cred_transports : option (list string)
}.

(** A stored passkey: the object literal [newPasskey] of
    [/register/verify], with fields [id], [publicKey], [counter],
    [transports], [deviceType] and [backedUp]. *)
Record Passkey := {
  pk_id : string;
  pk_publicKey : list Byte.byte;
  pk_counter : N;
  pk_transports : option (list string);
  pk_deviceType : CredentialDeviceType;
  pk_backedUp : bool
}.

(** [{ username, passkeys: [] }] *)
Record User := {
  username : string;
  passkeys : list Passkey
}.

(** An entry of [excludeCredentials] / [allowCredentials]. *)
Record CredentialDescriptor := {
  desc_id : string;
  desc_transports : option (list string)
}.

(** The options objects the library returns.  The handlers read the
    [challenge] member only and hand the object back to the client as it
    is; the remaining members are kept as the descriptor list and the
    relying-party id the options were generated for. *)
Record RegistrationOptions := {
  reg_challenge : string;
  reg_rpID : string;
  reg_userName : string;
  reg_excludeCredentials : list CredentialDescriptor
}.

Record AuthenticationOptions := {
  auth_challenge : string;
  auth_rpID : string;
  auth_allowCredentials : list CredentialDescriptor
}.

(** [const db = { users, regOptions, authOptions }] *)
Record Db := {
  users : gmap string User;
  regOptions : gmap string RegistrationOptions;
  authOptions : gmap string AuthenticationOptions
}.

(** The tables when the process starts. *)
Definition db0 : Db :=
  {| users := ∅; regOptions := ∅; authOptions := ∅ |}.

Definition set_users (f : gmap string User → gmap string User) (d : Db) : Db :=
  {| users := f (users d); regOptions := regOptions d; authOptions := authOptions d |}.

Definition set_regOptions
    (f : gmap string RegistrationOptions → gmap string RegistrationOptions) (d : Db) : Db :=
  {| users := users d; regOptions := f (regOptions d); authOptions := authOptions d |}.

Definition set_authOptions
    (f : gmap string AuthenticationOptions → gmap string AuthenticationOptions) (d : Db) : Db :=
  {| users := users d; regOptions := regOptions d; authOptions := f (authOptions d) |}.

(** ** Util *)

(** [function getOrCreateUser(username)]: the user object and the
    tables after the call.  A user object is always truthy, so [!user]
    holds exactly when the map has no entry. *)
Definition getOrCreateUser (name : string) (d : Db) : User * Db :=
  match users d !! name with
  | Some user => (user, d)
  | None =>
      let user := {| username := name; passkeys := [] |} in
      (user, set_users (insert name user) d)
  end.

(** ** Requests and replies *)

(** The [credential] member of a request body: the attestation or
    assertion the browser produced.  The handlers read its [id] (which
    a client may leave out) and pass the object on to the library. *)
Record CredentialJSON := {
  cj_id : option string;
  cj_response : string
}.

(** [req.body || {}], destructured: a member that is absent is [None].
    A request without a body is the body with both members absent.
    A [username] is a JSON string and a [credential] a JSON object;
    members of other JSON types are outside the model. *)
Record Body := {
  body_username : option string;
  body_credential : option CredentialJSON
}.

(** [!username] for a string member: absent or empty. *)
Definition truthy (s : option string) : option string :=
  match s with
  | Some "" => None
  | _ => s
  end.

(** What a handler answers.  [Reply400 e] is
    [res.status(400).json({ error: e })]; [Uncaught] is an exception
    that leaves the handler (no [try] around it). *)
Inductive Reply :=
  | ReplyRegOptions (options : RegistrationOptions)
  | ReplyAuthOptions (options : AuthenticationOptions)
  | ReplyVerified (verified : bool)
  | Reply400 (error : string)
  | Uncaught (message : string).

(** ** The imported library *)

Inductive Outcome (A : Type) :=
  | Resolved (a : A)
  | Rejected (message : string).
Arguments Resolved {A} a.
Arguments Rejected {A} message.

Record AuthenticatorSelection := {
  residentKey : string;
  userVerification : string
}.

Record GenerateRegistrationOptionsOpts := {
  gr_rpName : string;
  gr_rpID : string;
  gr_userName : string;
  gr_userDisplayName : string;
  gr_userID : list Byte.byte;
  gr_attestationType : string;
  gr_authenticatorSelection : AuthenticatorSelection;
  gr_excludeCredentials : list CredentialDescriptor
}.

Record VerifyRegistrationResponseOpts := {
  vr_response : CredentialJSON;
  vr_expectedChallenge : string;
  vr_expectedOrigin : list string;
  vr_expectedRPID : string
}.

Record RegistrationInfo := {
  credential : WebAuthnCredential;
  credentialDeviceType : CredentialDeviceType;
  credentialBackedUp : bool
}.

Record VerifiedRegistrationResponse := {
  reg_verified : bool;
  registrationInfo : option RegistrationInfo
}.

Record GenerateAuthenticationOptionsOpts := {
  ga_rpID : string;
  ga_userVerification : string;
  ga_allowCredentials : list CredentialDescriptor
}.

Record VerifyAuthenticationResponseOpts := {
  va_response : CredentialJSON;
  va_expectedChallenge : string;
  va_expectedOrigin : list string;
  va_expectedRPID : string;
  va_credential : WebAuthnCredential
}.

(** Of [authenticationInfo] the handler reads [newCounter] only. *)
Record AuthenticationInfo := {
  newCounter : N
}.

Record VerifiedAuthenticationResponse := {
  auth_verified : bool;
  authenticationInfo : option AuthenticationInfo
}.

(** The random bytes a generator draws for its challenge. *)
Definition Entropy : Type := string.

(** [import { ... } from '@simplewebauthn/server'] *)
Class SimpleWebAuthn := {
  generateRegistrationOptions :
    GenerateRegistrationOptionsOpts → Entropy → Outcome RegistrationOptions;
  verifyRegistrationResponse :
    VerifyRegistrationResponseOpts → Outcome VerifiedRegistrationResponse;
  generateAuthenticationOptions :
    GenerateAuthenticationOptionsOpts → Entropy → Outcome AuthenticationOptions;
  verifyAuthenticationResponse :
    VerifyAuthenticationResponseOpts → Outcome VerifiedAuthenticationResponse
}.

(** [rpID] and [ORIGINS], read from the environment at start-up. *)
Class Config := {
  rpID : string;
  ORIGINS : list string
}.

(** ** The handlers *)

(** [try { ... } catch { ... } finally { cleanup }]: whatever reply the
    [try] or [catch] block returned, [cleanup] runs on the tables they
    left before the handler is done. *)
Definition finally (cleanup : Db → Db) (r : Reply * Db) : Reply * Db :=
  (r.1, cleanup r.2).

Section Handlers.
Context {lib : SimpleWebAuthn} {cfg : Config}.

(** [user.passkeys.map(pk => ({ id: pk.id, transports: pk.transports }))] *)
Definition descriptors (l : list Passkey) : list CredentialDescriptor :=
  map (λ pk, {| desc_id := pk_id pk; desc_transports := pk_transports pk |}) l.

Definition registration_opts (name : string) (user : User)
    : GenerateRegistrationOptionsOpts :=
  {| gr_rpName := "Demo Passkeys";
     gr_rpID := rpID;
     gr_userName := name;
     gr_userDisplayName := name;
     gr_userID := String.list_byte_of_string name;
     gr_attestationType := "none";
     gr_authenticatorSelection :=
       {| residentKey := "preferred"; userVerification := "preferred" |};
     gr_excludeCredentials := descriptors (passkeys user) |}.

(** [app.post('/register/options', ...)]: [rnd] is the randomness the
    generator consumes during this request. *)
Definition register_options (rnd : Entropy) (body : Body) (d : Db) : Reply * Db :=
  match truthy (body_username body) with
  | None => (Reply400 "Falta username", d)
  | Some name =>
      let '(user, d1) := getOrCreateUser name d in
      match generateRegistrationOptions (registration_opts name user) rnd with
      | Rejected msg => (Uncaught msg, d1)
      | Resolved options =>
          (ReplyRegOptions options, set_regOptions (insert name options) d1)
      end
  end.

Definition verify_registration_opts (cred : CredentialJSON) (opts : RegistrationOptions)
    : VerifyRegistrationResponseOpts :=
  {| vr_response := cred;
     vr_expectedChallenge := reg_challenge opts;
     vr_expectedOrigin := ORIGINS;
     vr_expectedRPID := rpID |}.

(** The object literal [newPasskey]. *)
Definition newPasskey (info : RegistrationInfo) : Passkey :=
  {| pk_id := cred_id (credential info);
     pk_publicKey := cred_publicKey (credential info);
     pk_counter := cred_counter (credential info);
     pk_transports := cred_transports (credential info);
     pk_deviceType := credentialDeviceType info;
     pk_backedUp := credentialBackedUp info |}.

(** [verification.verified && verification.registrationInfo]: the
    passkey the handler is about to push, if any. *)
Definition registered_passkey (v : VerifiedRegistrationResponse) : option Passkey :=
  if reg_verified v then newPasskey <$> registrationInfo v else None.

(** [user.passkeys.push(newPasskey)] on the user stored under [name]. *)
Definition push_passkey (name : string) (user : User) (pk : Passkey) (d : Db) : Db :=
  set_users
    (insert name {| username := username user; passkeys := passkeys user ++ [pk] |}) d.

(** The [try] and [catch] blocks of [/register/verify], given how the
    awaited verification ended. *)
Definition register_verify_try (name : string) (user : User)
    (o : Outcome VerifiedRegistrationResponse) (d : Db) : Reply * Db :=
  match o with
  | Resolved verification =>
      (ReplyVerified (reg_verified verification),
       match registered_passkey verification with
       | Some pk => push_passkey name user pk d
       | None => d
       end)
  | Rejected msg => (Reply400 msg, d)
  end.

(** [app.post('/register/verify', ...)] *)
Definition register_verify (body : Body) (d : Db) : Reply * Db :=
  match truthy (body_username body), body_credential body with
  | Some name, Some cred =>
      match users d !! name with
      | None => (Reply400 "Usuario no existe", d)
      | Some user =>
          match regOptions d !! name with
          | None => (Reply400 "No hay options de registro activas", d)
          | Some opts =>
              finally (set_regOptions (delete name))
                (register_verify_try name user
                   (verifyRegistrationResponse (verify_registration_opts cred opts)) d)
          end
      end
  | _, _ => (Reply400 "Faltan datos", d)
  end.

Definition authentication_opts (user : User) : GenerateAuthenticationOptionsOpts :=
  {| ga_rpID := rpID;
     ga_userVerification := "preferred";
     ga_allowCredentials := descriptors (passkeys user) |}.

(** [app.post('/login/options', ...)] *)
Definition login_options (rnd : Entropy) (body : Body) (d : Db) : Reply * Db :=
  match truthy (body_username body) with
  | None => (Reply400 "Falta username", d)
  | Some name =>
      match users d !! name with
      | None => (Reply400 "Usuario no existe", d)
      | Some user =>
          match passkeys user with
          | [] => (Reply400 "Usuario sin passkeys", d)
          | _ :: _ =>
              match generateAuthenticationOptions (authentication_opts user) rnd with
              | Resolved options =>
                  (ReplyAuthOptions options, set_authOptions (insert name options) d)
              | Rejected msg => (Reply400 msg, d)
              end
          end
      end
  end.

(** [user.passkeys.find(pk => pk.id === credential.id)]: the first
    passkey with that id, together with its position in the array. *)
Definition find_passkey (cred : CredentialJSON) (l : list Passkey) : option (nat * Passkey) :=
  list_find (λ pk, cj_id cred = Some (pk_id pk)) l.

Definition verify_authentication_opts (cred : CredentialJSON)
    (opts : AuthenticationOptions) (passkey : Passkey)
    : VerifyAuthenticationResponseOpts :=
  {| va_response := cred;
     va_expectedChallenge := auth_challenge opts;
     va_expectedOrigin := ORIGINS;
     va_expectedRPID := rpID;
     va_credential :=
       {| cred_id := pk_id passkey;
          cred_publicKey := pk_publicKey passkey;
          cred_counter := pk_counter passkey;
          cred_transports := pk_transports passkey |} |}.

(** [verification.verified && verification.authenticationInfo]: the
    counter the handler is about to store, if any. *)
Definition accepted_counter (v : VerifiedAuthenticationResponse) : option N :=
  if auth_verified v then newCounter <$> authenticationInfo v else None.

(** [passkey.counter = newCounter] *)
Definition set_counter (n : N) (pk : Passkey) : Passkey :=
  {| pk_id := pk_id pk;
     pk_publicKey := pk_publicKey pk;
     pk_counter := n;
     pk_transports := pk_transports pk;
     pk_deviceType := pk_deviceType pk;
     pk_backedUp := pk_backedUp pk |}.

(** The assignment above, seen from [db.users]: [passkey] is the
    object at position [i] of the array of the user stored under
    [name]. *)
Definition store_counter (name : string) (user : User) (i : nat) (passkey : Passkey)
    (n : N) (d : Db) : Db :=
  set_users
    (insert name
       {| username := username user;
          passkeys := <[i := set_counter n passkey]> (passkeys user) |}) d.

(** The [try] and [catch] blocks of [/login/verify] once the passkey
    is found, given how the awaited verification ended. *)
Definition login_verify_try (name : string) (user : User) (i : nat) (passkey : Passkey)
    (o : Outcome VerifiedAuthenticationResponse) (d : Db) : Reply * Db :=
  match o with
  | Resolved verification =>
      (ReplyVerified (auth_verified verification),
       match accepted_counter verification with
       | Some n => store_counter name user i passkey n d
       | None => d
       end)
  | Rejected msg => (Reply400 msg, d)
  end.

(** [app.post('/login/verify', ...)] *)
Definition login_verify (body : Body) (d : Db) : Reply * Db :=
  match truthy (body_username body), body_credential body with
  | Some name, Some cred =>
      match users d !! name with
      | None => (Reply400 "Usuario no existe", d)
      | Some user =>
          match authOptions d !! name with
          | None => (Reply400 "No hay options de login activas", d)
          | Some opts =>
              finally (set_authOptions (delete name))
                (match find_passkey cred (passkeys user) with
                 | None => (Reply400 "Credencial no encontrada", d)
                 | Some (i, passkey) =>
                     login_verify_try name user i passkey
                       (verifyAuthenticationResponse
                          (verify_authentication_opts cred opts passkey)) d
                 end)
          end
      end
  | _, _ => (Reply400 "Faltan datos", d)
  end.

(** ** The server as a transition system *)

Inductive Request :=
  | RegisterOptions (rnd : Entropy) (body : Body)
  | RegisterVerify (body : Body)
  | LoginOptions (rnd : Entropy) (body : Body)
  | LoginVerify (body : Body).

Definition handle (r : Request) (d : Db) : Reply * Db :=
  match r with
  | RegisterOptions rnd body => register_options rnd body d
  | RegisterVerify body => register_verify body d
  | LoginOptions rnd body => login_options rnd body d
  | LoginVerify body => login_verify body d
  end.

(** The tables after serving a sequence of requests, oldest first. *)
Fixpoint run (rs : list Request) (d : Db) : Db :=
  match rs with
  | [] => d
  | r :: rs' => run rs' (handle r d).2
  end.

(** The states the server can be in. *)
Inductive reachable : Db → Prop :=
  | reachable_start : reachable db0
  | reachable_handle r d : reachable d → reachable (handle r d).2.

(** ** Vocabulary of the statements *)

(** The two ceremonies. *)
Inductive Kind := Registration | Authentication.

Definition request_body (r : Request) : Body :=
  match r with
  | RegisterOptions _ body | RegisterVerify body
  | LoginOptions _ body | LoginVerify body => body
  end.

(** The options request and the verify request of a ceremony. *)
Definition begin (k : Kind) (rnd : Entropy) (body : Body) (d : Db) : Reply * Db :=
  match k with
  | Registration => register_options rnd body d
  | Authentication => login_options rnd body d
  end.

Definition finish (k : Kind) (body : Body) (d : Db) : Reply * Db :=
  match k with
  | Registration => register_verify body d
  | Authentication => login_verify body d
  end.

(** The challenge pending for a user name, if any: [db.regOptions] and
    [db.authOptions] hold at most one options object per name. *)
Definition pending_challenge (k : Kind) (name : string) (d : Db) : option string :=
  match k with
  | Registration => reg_challenge <$> regOptions d !! name
  | Authentication => auth_challenge <$> authOptions d !! name
  end.

(** The challenge a reply hands to the client. *)
Definition issued_challenge (r : Reply) : option string :=
  match r with
  | ReplyRegOptions options => Some (reg_challenge options)
  | ReplyAuthOptions options => Some (auth_challenge options)
  | _ => None
  end.

(** The message of the 400 reply for a verify request without pending
    options. *)
Definition NoPendingChallenge (k : Kind) : string :=
  match k with
  | Registration => "No hay options de registro activas"
  | Authentication => "No hay options de login activas"
  end.

(** The passkeys on file for a name; none when the user is unknown. *)
Definition passkeys_of (name : string) (d : Db) : list Passkey :=
  from_option passkeys [] (users d !! name).


(** A verifier that never accepts an assertion whose counter is below
    the counter of the credential it was given. *)
Definition verifier_keeps_counters : Prop :=
  ∀ a v n,
    verifyAuthenticationResponse a = Resolved v →
    accepted_counter v = Some n →
    (cred_counter (va_credential a) ≤ n)%N.

(** What the three tables have in common in every state the server
    reaches: options are pending only for names that have a user, and
    login options only for users with a passkey. *)
Definition consistent (d : Db) : Prop :=
  (∀ name, is_Some (regOptions d !! name) → is_Some (users d !! name))
  ∧ (∀ name, is_Some (authOptions d !! name) → passkeys_of name d ≠ []).

(** Credential ids are pairwise distinct within each user. *)
Definition unique_ids (d : Db) : Prop :=
  ∀ name user, users d !! name = Some user → NoDup (pk_id <$> passkeys user).

(** The request does not register an id its user already has: a
    registration finish about to push a passkey pushes one whose id is
    not on file for that user. *)
Definition registers_new_id (r : Request) (d : Db) : Prop :=
  match r with
  | RegisterVerify body =>
      ∀ name cred user opts v pk,
        truthy (body_username body) = Some name →
        body_credential body = Some cred →
        users d !! name = Some user →
        regOptions d !! name = Some opts →
        verifyRegistrationResponse (verify_registration_opts cred opts) = Resolved v →
        registered_passkey v = Some pk →
        pk_id pk ∉ pk_id <$> passkeys user
  | _ => True
  end.

End Handlers.

(** ** A small instance of the library, to run the handlers on *)

(** Challenges are the random bytes themselves.  A response answers a
    challenge by carrying it in [cj_response]; the verifiers accept a
    response exactly when it answers the expected challenge.  A
    registration reports the credential id the client sent, with
    counter [init]; an assertion for a credential whose stored counter
    is [c] reports the counter [next c]. *)
Definition demoLib (init : N) (next : N → N) : SimpleWebAuthn :=
  {| generateRegistrationOptions a rnd :=
       Resolved {| reg_challenge := rnd;
                   reg_rpID := gr_rpID a;
                   reg_userName := gr_userName a;
                   reg_excludeCredentials := gr_excludeCredentials a |};
     verifyRegistrationResponse a :=
       if decide (cj_response (vr_response a) = vr_expectedChallenge a) then
         Resolved
           {| reg_verified := true;
              registrationInfo :=
                Some {| credential :=
                          {| cred_id := default "" (cj_id (vr_response a));
                             cred_publicKey := [];
                             cred_counter := init;
                             cred_transports := None |};
                        credentialDeviceType := singleDevice;
                        credentialBackedUp := false |} |}
       else Rejected "Unexpected registration response challenge";
     generateAuthenticationOptions a rnd :=
       Resolved {| auth_challenge := rnd;
                   auth_rpID := ga_rpID a;
                   auth_allowCredentials := ga_allowCredentials a |};
     verifyAuthenticationResponse a :=
       if decide (cj_response (va_response a) = va_expectedChallenge a) then
         Resolved {| auth_verified := true;
                     authenticationInfo :=
                       Some {| newCounter := next (cred_counter (va_credential a)) |} |}
       else Rejected "Unexpected authentication response challenge" |}.

(** The defaults of [server.js]. *)
Definition demoConfig : Config :=
  {| rpID := "localhost";
     ORIGINS := ["http://localhost:3000"; "http://localhost:5173"] |}.

Definition only_username (name : string) : Body :=
  {| body_username := Some name; body_credential := None |}.

Definition with_credential (name id answer : string) : Body :=
  {| body_username := Some name;
     body_credential := Some {| cj_id := Some id; cj_response := answer |} |}.

(** alice asks for registration options. *)
Definition alice_begins : list Request :=
  [RegisterOptions "c1" (only_username "alice")].

(** alice registers the credential "k1". *)
Definition alice_registers : list Request :=
  alice_begins ++ [RegisterVerify (with_credential "alice" "k1" "c1")].

(** alice registers "k1", then asks for login options. *)
Definition alice_begins_login : list Request :=
  alice_registers ++ [LoginOptions "c2" (only_username "alice")].

(** alice registers "k1", then registers "k1" again. *)
Definition alice_registers_twice : list Request :=
  alice_registers
  ++ [RegisterOptions "c3" (only_username "alice");
      RegisterVerify (with_credential "alice" "k1" "c3")].

(** The tables after serving [rs] from the start, with [demoLib]. *)
Definition demo (init : N) (next : N → N) (rs : list Request) : Db :=
  run (lib := demoLib init next) (cfg := demoConfig) rs db0.


(** alice has registered "k1" and asked for login options; bob has asked
    for registration options; alice asks for registration options
    again. *)
Definition alice_and_bob : list Request :=
  alice_begins_login
  ++ [RegisterOptions "c4" (only_username "bob");
      RegisterOptions "c5" (only_username "alice")].

(** The requests of alice in [alice_and_bob], without the one of bob. *)
Definition alice_alone : list Request :=
  alice_begins_login ++ [RegisterOptions "c5" (only_username "alice")].

(** The passkey "k1" as [demoLib] registers it, with a given counter. *)
Definition k1_stored (counter : N) : Passkey :=
  {| pk_id := "k1"; pk_publicKey := []; pk_counter := counter;
     pk_transports := None; pk_deviceType := singleDevice; pk_backedUp := false |}.

(** The options [demoLib] issues to alice in the runs above. *)
Definition alice_registration_options : RegistrationOptions :=
  {| reg_challenge := "c1";
     reg_rpID := "localhost";
     reg_userName := "alice";
     reg_excludeCredentials := [] |}.

Definition alice_login_options : AuthenticationOptions :=
  {| auth_challenge := "c2";
     auth_rpID := "localhost";
     auth_allowCredentials := [ {| desc_id := "k1"; desc_transports := None |} ] |}.


(** A library like [demoLib 7 N.succ] whose registrations report a
    public key, transports, a multi-device credential and the backup
    flag. *)
Definition richLib : SimpleWebAuthn :=
  {| generateRegistrationOptions :=
       generateRegistrationOptions (SimpleWebAuthn := demoLib 7 N.succ);
     verifyRegistrationResponse a :=
       if decide (cj_response (vr_response a) = vr_expectedChallenge a) then
         Resolved
           {| reg_verified := true;
              registrationInfo :=
                Some {| credential :=
                          {| cred_id := default "" (cj_id (vr_response a));
                             cred_publicKey := [Byte.xa5; Byte.x01; Byte.x02];
                             cred_counter := 7;
                             cred_transports := Some ["internal"; "hybrid"] |};
                        credentialDeviceType := multiDevice;
                        credentialBackedUp := true |} |}
       else Rejected "Unexpected registration response challenge";
     generateAuthenticationOptions :=
       generateAuthenticationOptions (SimpleWebAuthn := demoLib 7 N.succ);
     verifyAuthenticationResponse :=
       verifyAuthenticationResponse (SimpleWebAuthn := demoLib 7 N.succ) |}.

(** A passkey as [richLib] registers it. *)
Definition rich_stored (id : string) : Passkey :=
  {| pk_id := id; pk_publicKey := [Byte.xa5; Byte.x01; Byte.x02]; pk_counter := 7;
     pk_transports := Some ["internal"; "hybrid"]; pk_deviceType := multiDevice;
     pk_backedUp := true |}.

(** alice registers "k1", then asks for registration options again. *)
Definition alice_begins_again : list Request :=
  alice_registers ++ [RegisterOptions "c3" (only_username "alice")].

(** ** Vocabulary of the further statements *)

(** Every user is stored under its own, non-empty name. *)
Definition well_keyed (d : Db) : Prop :=
  ∀ name user, users d !! name = Some user → username user = name ∧ name ≠ "".

(** Two states hold the same under a name: the same user (or none) and
    the same pending options of either kind (or none). *)
Definition agree_on (name : string) (d d' : Db) : Prop :=
  users d !! name = users d' !! name
  ∧ regOptions d !! name = regOptions d' !! name
  ∧ authOptions d !! name = authOptions d' !! name.

(** Two passkeys that differ at most in their counter. *)
Definition same_key (pk pk' : Passkey) : Prop :=
  pk_id pk' = pk_id pk
  ∧ pk_publicKey pk' = pk_publicKey pk
  ∧ pk_transports pk' = pk_transports pk
  ∧ pk_deviceType pk' = pk_deviceType pk
  ∧ pk_backedUp pk' = pk_backedUp pk.

(** A reply that turns the request down: a 400, or [verified: false]. *)
Definition refused (r : Reply) : bool :=
  match r with
  | Reply400 _ | ReplyVerified false => true
  | _ => false
  end.

(** A library whose registration options generator always fails, and
    which is [demoLib] otherwise. *)
Definition brokenLib : SimpleWebAuthn :=
  {| generateRegistrationOptions _ _ := Rejected "generator failed";
     verifyRegistrationResponse :=
       verifyRegistrationResponse (SimpleWebAuthn := demoLib 5 N.succ);
     generateAuthenticationOptions :=
       generateAuthenticationOptions (SimpleWebAuthn := demoLib 5 N.succ);
     verifyAuthenticationResponse :=
       verifyAuthenticationResponse (SimpleWebAuthn := demoLib 5 N.succ) |}.

(** ** Configuration (the [// Config] block of server.js) *)

(** The characters (UTF-8 bytes) of a string. *)
Abbreviation chars := String.list_ascii_of_string.
Abbreviation of_chars := String.string_of_list_ascii.

Definition code (a : ascii) : N := N_of_ascii a.

(** What [String.prototype.trim] removes: the WhiteSpace and
    LineTerminator code points of ECMAScript, in their UTF-8 encoding.
    One byte: U+0009 to U+000D and U+0020. *)
Definition white1 (a : ascii) : bool :=
  match code a with
  | 0x09 | 0x0A | 0x0B | 0x0C | 0x0D | 0x20 => true
  | _ => false
  end%N.

(** Two bytes: U+00A0. *)
Definition white2 (a b : ascii) : bool :=
  match code a, code b with
  | 0xC2, 0xA0 => true
  | _, _ => false
  end%N.

(** Three bytes: U+1680, U+2000 to U+200A, U+2028, U+2029, U+202F,
    U+205F, U+3000 and U+FEFF. *)
Definition white3 (a b c : ascii) : bool :=
  match code a, code b with
  | 0xE1, 0x9A => (code c =? 0x80)
  | 0xE2, 0x80 =>
      ((0x80 <=? code c) && (code c <=? 0x8A))
      || (code c =? 0xA8) || (code c =? 0xA9) || (code c =? 0xAF)
  | 0xE2, 0x81 => (code c =? 0x9F)
  | 0xE3, 0x80 => (code c =? 0x80)
  | 0xEF, 0xBB => (code c =? 0xBF)
  | _, _ => false
  end%N.

Section Trim.
Variable w1 : ascii → bool.
Variable w2 : ascii → ascii → bool.
Variable w3 : ascii → ascii → ascii → bool.

(** Does the text start with a character of the class given by [w1],
    [w2] and [w3] (its one-, two- and three-byte members)? *)
Definition leads (l : list ascii) : bool :=
  match l with
  | a :: l1 =>
      w1 a
      || match l1 with
         | b :: l2 =>
             w2 a b
             || match l2 with
                | c :: _ => w3 a b c
                | [] => false
                end
         | [] => false
         end
  | [] => false
  end.

(** The text without the characters of the class it starts with. *)
Fixpoint trim_front (l : list ascii) : list ascii :=
  match l with
  | a :: l1 =>
      if w1 a then trim_front l1
      else match l1 with
           | b :: l2 =>
               if w2 a b then trim_front l2
               else match l2 with
                    | c :: l3 => if w3 a b c then trim_front l3 else l
                    | [] => l
                    end
           | [] => l
           end
  | [] => []
  end.

End Trim.

(** [s.trimStart()] *)
Definition trimStart (l : list ascii) : list ascii :=
  trim_front white1 white2 white3 l.

(** [s.trimEnd()]: the same from the other end, on the reversed text,
    where the bytes of a character come last byte first. *)
Definition trimEnd (l : list ascii) : list ascii :=
  reverse (trim_front white1 (λ a b, white2 b a) (λ a b c, white3 c b a) (reverse l)).

(** [s.trim()] *)
Definition trim (l : list ascii) : list ascii :=
  trimEnd (trimStart l).

Definition starts_with_space (s : string) : bool :=
  leads white1 white2 white3 (chars s).

Definition ends_with_space (s : string) : bool :=
  leads white1 (λ a b, white2 b a) (λ a b c, white3 c b a) (reverse (chars s)).

(** [s.split(',')]: the pieces between the commas; one piece more than
    there are commas. *)
Fixpoint split_comma (l : list ascii) : list (list ascii) :=
  match l with
  | [] => [[]]
  | a :: l' =>
      if decide (a = ","%char) then [] :: split_comma l'
      else match split_comma l' with
           | piece :: pieces => (a :: piece) :: pieces
           | [] => [[a]]
           end
  end.

(** [l.join(',')] *)
Definition join_comma (l : list string) : string := String.concat "," l.

Definition commas (s : string) : nat :=
  length (filter (λ a, a = ","%char) (chars s)).

(** [value.split(',').map(s => s.trim())] *)
Definition parse_origins (value : string) : list string :=
  (λ piece, of_chars (trim piece)) <$> split_comma (chars value).

(** [process.env.NAME || fallback]: an unset variable is undefined, and
    undefined and the empty string are falsy. *)
Definition env_or (value : option string) (fallback : string) : string :=
  default fallback (truthy value).

(** [rpID] and [ORIGINS] as server.js computes them from
    [process.env]. *)
Definition configFromEnv (env : gmap string string) : Config :=
  {| rpID := env_or (env !! "RPID") "localhost";
     ORIGINS :=
       parse_origins
         (env_or (env !! "ORIGINS") "http://localhost:3000,http://localhost:5173") |}.

(** ** The catch-all route of the deployed server *)

(** The variant of server.js that also serves the built front end ends
    with [app.get(/^(?!\/(register|login|debug|healthz)(\/|$)).*/, ...)],
    which answers with index.html. *)
Definition api_words : list string := ["register"; "login"; "debug"; "healthz"].

(** The text after the prefix [p], when the text starts with [p]. *)
Fixpoint strip_prefix (p s : string) : option string :=
  match p, s with
  | "", _ => Some s
  | String a p', String b s' => if decide (a = b) then strip_prefix p' s' else None
  | String _ _, "" => None
  end.

(** [\/(register|login|debug|healthz)(\/|$)] at the start of the path:
    a slash, one of the words, and then a slash or the end. *)
Definition api_path (path : string) : bool :=
  existsb
    (λ word,
       match strip_prefix ("/" +:+ word) path with
       | Some "" => true
       | Some (String c _) => bool_decide (c = "/"%char)
       | None => false
       end)
    api_words.

(** The regular expression matches a path when the negative lookahead
    at its start succeeds; [.*] then matches whatever follows, the
    empty text included. *)
Definition catch_all (path : string) : bool := negb (api_path path).

(** The text up to the first slash. *)
Fixpoint until_slash (s : string) : string :=
  match s with
  | "" => ""
  | String c s' => if decide (c = "/"%char) then "" else String c (until_slash s')
  end.

(** The first segment of a path that starts with a slash. *)
Definition first_segment (path : string) : option string :=
  match path with
  | String c rest => if decide (c = "/"%char) then Some (until_slash rest) else None
  | "" => None
  end.

(** ** The front end (frontend/src/App.js) *)

(** The JSON bodies the server sends. *)
Inductive Json :=
  | JsonRegOptions (options : RegistrationOptions)
  | JsonAuthOptions (options : AuthenticationOptions)
  | JsonVerified (verified : bool)
  | JsonError (error : string).

(** A response as [fetch] delivers it; [json] is [None] when the body
    is not JSON, in which case [r.json().catch(() => ({}))] yields the
    empty object. *)
Record HttpResponse := {
  status : N;
  json : option Json
}.

(** What reaches [fetch] when an exception leaves a handler: the answer
    of the framework, or a failure of the request. *)
Class Framework := {
  on_uncaught : string → Outcome HttpResponse
}.

(** [startRegistration] and [startAuthentication] of
    [@simplewebauthn/browser], applied to [{ optionsJSON: options }]:
    the response of the authenticator, or the error thrown (the user
    cancels, no authenticator, ...). *)
Class Browser := {
  startRegistration : option Json → Outcome CredentialJSON;
  startAuthentication : option Json → Outcome CredentialJSON
}.

(** [r.ok] *)
Definition ok (r : HttpResponse) : bool :=
  ((200 <=? status r) && (status r <=? 299))%N.

(** [data.error] *)
Definition error_member (data : option Json) : option string :=
  match data with
  | Some (JsonError e) => Some e
  | _ => None
  end.

(** [v.verified], as a condition *)
Definition verified_member (data : option Json) : bool :=
  match data with
  | Some (JsonVerified v) => v
  | _ => false
  end.

(** [postJSON], given what [fetch] resolved or rejected with: the
    parsed body, or the [Error] thrown. *)
Definition postJSON (fetched : Outcome HttpResponse) : Outcome (option Json) :=
  match fetched with
  | Rejected m => Rejected m
  | Resolved r =>
      if ok r then Resolved (json r)
      else Rejected (env_or (error_member (json r)) ("HTTP " +:+ pretty (status r)))
  end.

Section FrontEnd.
Context {lib : SimpleWebAuthn} {cfg : Config} {express : Framework} {browser : Browser}.

(** The answer of a handler as it reaches [fetch]: [res.json(x)]
    answers 200 with [x], [res.status(400).json(x)] answers 400 with
    [x].  The request is taken to reach the handler and the answer to
    reach the page (the page is served from one of [ORIGINS], the
    network is up). *)
Definition exchange (reply : Reply) : Outcome HttpResponse :=
  match reply with
  | ReplyRegOptions o => Resolved {| status := 200; json := Some (JsonRegOptions o) |}
  | ReplyAuthOptions o => Resolved {| status := 200; json := Some (JsonAuthOptions o) |}
  | ReplyVerified v => Resolved {| status := 200; json := Some (JsonVerified v) |}
  | Reply400 e => Resolved {| status := 400; json := Some (JsonError e) |}
  | Uncaught m => on_uncaught m
  end.

(** [handleRegister]: the messages passed to [setMsg], in order, and
    the tables of the server afterwards.  [name] is the text of the
    input field.  The page sends two requests with the authenticator
    prompt in between; [between] are the requests of other pages that
    the server serves while the prompt is open. *)
Definition handleRegister (rnd : Entropy) (name : string) (between : list Request)
    (d : Db) : list string * Db :=
  let start := "📥 Pidiendo opciones de registro..." in
  let failed m := [start; "❌ Error en registro: " +:+ m] in
  let '(reply1, d1) :=
    register_options rnd {| body_username := Some name; body_credential := None |} d in
  match postJSON (exchange reply1) with
  | Rejected m => (failed m, d1)
  | Resolved options =>
      let d1' := run between d1 in
      match startRegistration options with
      | Rejected m => (failed m, d1')
      | Resolved attResp =>
          let '(reply2, d2) :=
            register_verify
              {| body_username := Some name; body_credential := Some attResp |} d1' in
          match postJSON (exchange reply2) with
          | Rejected m => (failed m, d2)
          | Resolved v =>
              ([start;
                if verified_member v then "✅ Passkey registrada"
                else "❌ Registro no verificado"], d2)
          end
      end
  end.

(** [handleLogin], likewise. *)
Definition handleLogin (rnd : Entropy) (name : string) (between : list Request)
    (d : Db) : list string * Db :=
  let start := "📥 Pidiendo opciones de login..." in
  let failed m := [start; "❌ Error en login: " +:+ m] in
  let '(reply1, d1) :=
    login_options rnd {| body_username := Some name; body_credential := None |} d in
  match postJSON (exchange reply1) with
  | Rejected m => (failed m, d1)
  | Resolved options =>
      let d1' := run between d1 in
      match startAuthentication options with
      | Rejected m => (failed m, d1')
      | Resolved asseResp =>
          let '(reply2, d2) :=
            login_verify
              {| body_username := Some name; body_credential := Some asseResp |} d1' in
          match postJSON (exchange reply2) with
          | Rejected m => (failed m, d2)
          | Resolved v =>
              ([start;
                if verified_member v then "✅ Login OK"
                else "❌ Login no verificado"], d2)
          end
      end
  end.

End FrontEnd.

(** A browser whose authenticator answers the challenge it is given
    with the credential id [id]; one whose user always cancels; and a
    framework that answers 500 without a JSON body when an exception
    leaves a handler. *)
Definition demoBrowser (id : string) : Browser :=
  {| startRegistration data :=
       match data with
       | Some (JsonRegOptions o) =>
           Resolved {| cj_id := Some id; cj_response := reg_challenge o |}
       | _ => Rejected "no options"
       end;
     startAuthentication data :=
       match data with
       | Some (JsonAuthOptions o) =>
           Resolved {| cj_id := Some id; cj_response := auth_challenge o |}
       | _ => Rejected "no options"
       end |}.

Definition cancellingBrowser : Browser :=
  {| startRegistration _ := Rejected "The operation was cancelled";
     startAuthentication _ := Rejected "The operation was cancelled" |}.

Definition demoFramework : Framework :=
  {| on_uncaught _ := Resolved {| status := 500; json := None |} |}.

(** alice logs in once with "k1". *)
Definition alice_logs_in : list Request :=
  [LoginOptions "c6" (only_username "alice");
   LoginVerify (with_credential "alice" "k1" "c6")].

(** * Properties *)

Section Properties.
Context {lib : SimpleWebAuthn} {cfg : Config}.

(** ** Reading a request body *)

Lemma truthy_Some o name : truthy o = Some name → o = Some name ∧ name ≠ "".
Proof.
  destruct o as [[|a s]|]; simpl; intros Ho; inversion Ho; subst; split;
    [reflexivity | discriminate].
Qed.

Lemma truthy_intro name : name ≠ "" → truthy (Some name) = Some name.
Proof. destruct name; [congruence | reflexivity]. Qed.

(** ** getOrCreateUser *)

Lemma getOrCreateUser_lookup name d :
  users (getOrCreateUser name d).2 !! name = Some (getOrCreateUser name d).1.
Proof.
  unfold getOrCreateUser. destruct (users d !! name) eqn:Hu; simpl.
  - exact Hu.
  - apply lookup_insert_eq.
Qed.

Lemma getOrCreateUser_caches name d :
  regOptions (getOrCreateUser name d).2 = regOptions d
  ∧ authOptions (getOrCreateUser name d).2 = authOptions d.
Proof. unfold getOrCreateUser. by destruct (users d !! name). Qed.

Lemma getOrCreateUser_keeps name d other user :
  users d !! other = Some user →
  users (getOrCreateUser name d).2 !! other = Some user.
Proof.
  intros Hu. unfold getOrCreateUser.
  destruct (users d !! name) eqn:Hn; simpl; [done|].
  rewrite lookup_insert_ne; [done | congruence].
Qed.

(** ** The handlers, one path at a time *)

Lemma register_verify_reached body d name cred user opts :
  truthy (body_username body) = Some name →
  body_credential body = Some cred →
  users d !! name = Some user →
  regOptions d !! name = Some opts →
  register_verify body d =
    finally (set_regOptions (delete name))
      (register_verify_try name user
         (verifyRegistrationResponse (verify_registration_opts cred opts)) d).
Proof. intros Hn Hc Hu Ho. unfold register_verify. by rewrite Hn, Hc, Hu, Ho. Qed.

Lemma login_verify_reached body d name cred user opts :
  truthy (body_username body) = Some name →
  body_credential body = Some cred →
  users d !! name = Some user →
  authOptions d !! name = Some opts →
  login_verify body d =
    finally (set_authOptions (delete name))
      (match find_passkey cred (passkeys user) with
       | None => (Reply400 "Credencial no encontrada", d)
       | Some (i, passkey) =>
           login_verify_try name user i passkey
             (verifyAuthenticationResponse
                (verify_authentication_opts cred opts passkey)) d
       end).
Proof. intros Hn Hc Hu Ho. unfold login_verify. by rewrite Hn, Hc, Hu, Ho. Qed.

(** ** What each handler does to each table *)

Lemma register_verify_try_caches name user o d :
  regOptions (register_verify_try name user o d).2 = regOptions d
  ∧ authOptions (register_verify_try name user o d).2 = authOptions d.
Proof.
  destruct o as [v|msg]; simpl; [|done].
  by destruct (registered_passkey v).
Qed.

Lemma login_verify_try_caches name user i pk o d :
  regOptions (login_verify_try name user i pk o d).2 = regOptions d
  ∧ authOptions (login_verify_try name user i pk o d).2 = authOptions d.
Proof.
  destruct o as [v|msg]; simpl; [|done].
  by destruct (accepted_counter v).
Qed.

Lemma register_options_authOptions rnd body d :
  authOptions (register_options rnd body d).2 = authOptions d.
Proof.
  unfold register_options. destruct (truthy _) as [name|]; [|reflexivity].
  pose proof (getOrCreateUser_caches name d) as [_ Ha].
  destruct (getOrCreateUser name d) as [user d1]; simpl in *.
  by destruct (generateRegistrationOptions _ _).
Qed.

Lemma register_options_regOptions rnd body d other :
  body_username body ≠ Some other →
  regOptions (register_options rnd body d).2 !! other = regOptions d !! other.
Proof.
  intros Hne. unfold register_options.
  destruct (truthy _) as [name|] eqn:Hn; [|reflexivity].
  apply truthy_Some in Hn as [Hn _].
  pose proof (getOrCreateUser_caches name d) as [Hr _].
  destruct (getOrCreateUser name d) as [user d1]; simpl in *.
  destruct (generateRegistrationOptions _ _); simpl; rewrite ?Hr; [|done].
  rewrite lookup_insert_ne; [done | congruence].
Qed.

Lemma register_verify_authOptions body d :
  authOptions (register_verify body d).2 = authOptions d.
Proof.
  unfold register_verify.
  destruct (truthy _) as [name|]; [|reflexivity].
  destruct (body_credential body) as [cred|]; [|reflexivity].
  destruct (users d !! name) as [user|]; [|reflexivity].
  destruct (regOptions d !! name) as [opts|]; [|reflexivity].
  simpl. apply register_verify_try_caches.
Qed.

Lemma register_verify_regOptions body d other :
  body_username body ≠ Some other →
  regOptions (register_verify body d).2 !! other = regOptions d !! other.
Proof.
  intros Hne. unfold register_verify.
  destruct (truthy _) as [name|] eqn:Hn; [|reflexivity].
  apply truthy_Some in Hn as [Hn _].
  destruct (body_credential body) as [cred|]; [|reflexivity].
  destruct (users d !! name) as [user|]; [|reflexivity].
  destruct (regOptions d !! name) as [opts|]; [|reflexivity].
  simpl. rewrite lookup_delete_ne by congruence.
  by rewrite (proj1 (register_verify_try_caches _ _ _ _)).
Qed.

Lemma login_options_regOptions rnd body d :
  regOptions (login_options rnd body d).2 = regOptions d.
Proof.
  unfold login_options. destruct (truthy _) as [name|]; [|reflexivity].
  destruct (users d !! name) as [user|]; [|reflexivity].
  destruct (passkeys user); [reflexivity|].
  by destruct (generateAuthenticationOptions _ _).
Qed.

Lemma login_options_users rnd body d :
  users (login_options rnd body d).2 = users d.
Proof.
  unfold login_options. destruct (truthy _) as [name|]; [|reflexivity].
  destruct (users d !! name) as [user|]; [|reflexivity].
  destruct (passkeys user); [reflexivity|].
  by destruct (generateAuthenticationOptions _ _).
Qed.

Lemma login_options_authOptions rnd body d other :
  body_username body ≠ Some other →
  authOptions (login_options rnd body d).2 !! other = authOptions d !! other.
Proof.
  intros Hne. unfold login_options.
  destruct (truthy _) as [name|] eqn:Hn; [|reflexivity].
  apply truthy_Some in Hn as [Hn _].
  destruct (users d !! name) as [user|]; [|reflexivity].
  destruct (passkeys user); [reflexivity|].
  destruct (generateAuthenticationOptions _ _); simpl; [|done].
  rewrite lookup_insert_ne; [done | congruence].
Qed.

Lemma login_verify_regOptions body d :
  regOptions (login_verify body d).2 = regOptions d.
Proof.
  unfold login_verify.
  destruct (truthy _) as [name|]; [|reflexivity].
  destruct (body_credential body) as [cred|]; [|reflexivity].
  destruct (users d !! name) as [user|]; [|reflexivity].
  destruct (authOptions d !! name) as [opts|]; [|reflexivity].
  simpl. destruct (find_passkey cred (passkeys user)) as [[i pk]|]; [|reflexivity].
  apply login_verify_try_caches.
Qed.

Lemma login_verify_authOptions body d other :
  body_username body ≠ Some other →
  authOptions (login_verify body d).2 !! other = authOptions d !! other.
Proof.
  intros Hne. unfold login_verify.
  destruct (truthy _) as [name|] eqn:Hn; [|reflexivity].
  apply truthy_Some in Hn as [Hn _].
  destruct (body_credential body) as [cred|]; [|reflexivity].
  destruct (users d !! name) as [user|]; [|reflexivity].
  destruct (authOptions d !! name) as [opts|]; [|reflexivity].
  simpl. rewrite lookup_delete_ne by congruence.
  destruct (find_passkey cred (passkeys user)) as [[i pk]|]; [|reflexivity].
  by rewrite (proj2 (login_verify_try_caches _ _ _ _ _ _)).
Qed.

(** ** Users are never removed and never lose a passkey *)

Lemma register_options_users rnd body d other user :
  users d !! other = Some user →
  users (register_options rnd body d).2 !! other = Some user.
Proof.
  intros Hu. unfold register_options.
  destruct (truthy _) as [name|]; [|done].
  pose proof (getOrCreateUser_keeps name d other user Hu) as Hk.
  destruct (getOrCreateUser name d) as [user1 d1]; simpl in *.
  by destruct (generateRegistrationOptions _ _).
Qed.

Lemma register_verify_try_users name user o d other u :
  users d !! other = Some u →
  ∃ u', users (register_verify_try name user o d).2 !! other = Some u'
        ∧ (other = name ∨ u' = u)
        ∧ (users d !! name = Some user → (length (passkeys u) ≤ length (passkeys u'))%nat).
Proof.
  intros Hu. destruct o as [v|msg]; simpl; [|by eauto].
  destruct (registered_passkey v) as [pk|]; simpl; [|by eauto].
  destruct (decide (name = other)) as [<-|Hne].
  - rewrite lookup_insert_eq. eexists; split; [done|]. split; [by left|].
    intros Hn. rewrite Hn in Hu. injection Hu as <-. simpl.
    rewrite length_app. lia.
  - rewrite lookup_insert_ne by done. eauto.
Qed.

Lemma login_verify_try_users name user i pk o d other u :
  users d !! other = Some u →
  ∃ u', users (login_verify_try name user i pk o d).2 !! other = Some u'
        ∧ (other = name ∨ u' = u)
        ∧ (users d !! name = Some user → (length (passkeys u) ≤ length (passkeys u'))%nat).
Proof.
  intros Hu. destruct o as [v|msg]; simpl; [|by eauto].
  destruct (accepted_counter v) as [n|]; simpl; [|by eauto].
  destruct (decide (name = other)) as [<-|Hne].
  - rewrite lookup_insert_eq. eexists; split; [done|]. split; [by left|].
    intros Hn. rewrite Hn in Hu. injection Hu as <-. simpl.
    by rewrite length_insert.
  - rewrite lookup_insert_ne by done. eauto.
Qed.

Lemma handle_users_grow r d name user :
  users d !! name = Some user →
  ∃ user', users (handle r d).2 !! name = Some user'
           ∧ (length (passkeys user) ≤ length (passkeys user'))%nat.
Proof.
  intros Hu. destruct r as [rnd body|body|rnd body|body]; simpl.
  - exists user. split; [by apply register_options_users | done].
  - unfold register_verify.
    destruct (truthy _) as [name0|]; [|by eauto].
    destruct (body_credential body) as [cred|]; [|by eauto].
    destruct (users d !! name0) as [user0|] eqn:Hu0; [|by eauto].
    destruct (regOptions d !! name0) as [opts|]; [|by eauto].
    simpl.
    destruct (register_verify_try_users name0 user0
      (verifyRegistrationResponse (verify_registration_opts cred opts)) d name user Hu)
      as (u' & Hu' & _ & Hlen).
    exists u'. split; [done | by apply Hlen].
  - rewrite login_options_users. by eauto.
  - unfold login_verify.
    destruct (truthy _) as [name0|]; [|by eauto].
    destruct (body_credential body) as [cred|]; [|by eauto].
    destruct (users d !! name0) as [user0|] eqn:Hu0; [|by eauto].
    destruct (authOptions d !! name0) as [opts|]; [|by eauto].
    simpl. destruct (find_passkey cred (passkeys user0)) as [[i pk]|]; [|by eauto].
    destruct (login_verify_try_users name0 user0 i pk
      (verifyAuthenticationResponse (verify_authentication_opts cred opts pk)) d name user Hu)
      as (u' & Hu' & _ & Hlen).
    exists u'. split; [done | by apply Hlen].
Qed.

Lemma handle_keeps_passkeys r d name :
  passkeys_of name d ≠ [] → passkeys_of name (handle r d).2 ≠ [].
Proof.
  unfold passkeys_of. destruct (users d !! name) as [user|] eqn:Hu; simpl; [|done].
  destruct (handle_users_grow r d name user Hu) as (user' & -> & Hlen). simpl.
  destruct (passkeys user), (passkeys user'); simpl in *; (done || lia).
Qed.

(** ** Reachable states are consistent *)

Lemma consistent_start : consistent db0.
Proof. split; intros name [x Hx]; simpl in Hx; by rewrite lookup_empty in Hx. Qed.

Lemma handle_consistent r d : consistent d → consistent (handle r d).2.
Proof.
  intros [Hreg Hauth]. split; intros name Hname.
  - (* registration options *)
    assert (is_Some (regOptions d !! name) ∨ is_Some (users (handle r d).2 !! name))
      as [Hold|Hnew]; [| |done].
    + destruct r as [rnd body|body|rnd body|body]; simpl in *.
      * destruct (decide (body_username body = Some name)) as [Hb|Hb].
        -- right. unfold register_options. rewrite Hb.
           destruct (truthy (Some name)) as [n|] eqn:Hn.
           ++ apply truthy_Some in Hn as [[= <-] _].
              pose proof (getOrCreateUser_lookup name d) as Hl.
              destruct (getOrCreateUser name d) as [user d1]; simpl in *.
              destruct (generateRegistrationOptions _ _); simpl; by eauto.
           ++ unfold register_options in Hname. rewrite Hb, Hn in Hname.
              simpl in Hname. by apply Hreg.
        -- left. by rewrite register_options_regOptions in Hname.
      * destruct (decide (body_username body = Some name)) as [Hb|Hb].
        -- left. revert Hname. unfold register_verify. rewrite Hb.
           destruct (truthy (Some name)) as [n|] eqn:Hn; [|done].
           apply truthy_Some in Hn as [[= <-] _].
           destruct (body_credential body); [|done].
           destruct (users d !! name); [|done].
           destruct (regOptions d !! name) eqn:Ho; [by eauto|].
           simpl. by rewrite Ho.
        -- left. by rewrite register_verify_regOptions in Hname.
      * left. by rewrite login_options_regOptions in Hname.
      * left. by rewrite login_verify_regOptions in Hname.
    + destruct (Hreg name Hold) as [user Hu].
      destruct (handle_users_grow r d name user Hu) as (user' & Hu' & _). by eauto.
  - (* login options *)
    assert (passkeys_of name d ≠ [] ∨ passkeys_of name (handle r d).2 ≠ [])
      as [Hold|Hnew]; [| |done].
    + destruct r as [rnd body|body|rnd body|body]; simpl in *.
      * left. apply Hauth. by rewrite register_options_authOptions in Hname.
      * left. apply Hauth. by rewrite register_verify_authOptions in Hname.
      * destruct (decide (body_username body = Some name)) as [Hb|Hb].
        -- left. revert Hname. unfold login_options. rewrite Hb.
           destruct (truthy (Some name)) as [n|] eqn:Hn; [|by apply Hauth].
           apply truthy_Some in Hn as [[= <-] _].
           destruct (users d !! name) as [user|] eqn:Hu; [|by apply Hauth].
           destruct (passkeys user) eqn:Hp; [by apply Hauth|].
           intros _. unfold passkeys_of. rewrite Hu. simpl. by rewrite Hp.
        -- left. apply Hauth. by rewrite login_options_authOptions in Hname.
      * destruct (decide (body_username body = Some name)) as [Hb|Hb].
        -- left. apply Hauth. revert Hname. unfold login_verify. rewrite Hb.
           destruct (truthy (Some name)) as [n|] eqn:Hn; [|done].
           apply truthy_Some in Hn as [[= <-] _].
           destruct (body_credential body); [|done].
           destruct (users d !! name); [|done].
           destruct (authOptions d !! name) eqn:Ho; [by eauto|].
           simpl. by rewrite Ho.
        -- left. apply Hauth. by rewrite login_verify_authOptions in Hname.
    + by apply handle_keeps_passkeys.
Qed.

Lemma reachable_consistent d : reachable d → consistent d.
Proof.
  induction 1 as [|r d _ IH]; [apply consistent_start | by apply handle_consistent].
Qed.

Lemma run_reachable rs d : reachable d → reachable (run rs d).
Proof.
  revert d. induction rs as [|r rs IH]; intros d Hd; simpl; [done|].
  apply IH. by constructor.
Qed.

(** An unknown user has no pending options of either kind. *)
Lemma consistent_unknown_user k name d :
  consistent d → users d !! name = None → pending_challenge k name d = None.
Proof.
  intros [Hreg Hauth] Hu. destruct k; simpl.
  - destruct (regOptions d !! name) eqn:Ho; [|done].
    destruct (Hreg name) as [u Hu']; [by eauto | congruence].
  - destruct (authOptions d !! name) eqn:Ho; [|done].
    destruct (Hauth name); [by eauto|]. unfold passkeys_of. by rewrite Hu.
Qed.

(** ** Verify requests and the pending challenge *)

(** Without pending options a verify request stops at one of the three
    guards in front of the [try] block. *)
Lemma finish_no_pending k body d name :
  body_username body = Some name →
  pending_challenge k name d = None →
  finish k body d =
    (Reply400
       match truthy (Some name), body_credential body with
       | Some _, Some _ =>
           match users d !! name with
           | Some _ => NoPendingChallenge k
           | None => "Usuario no existe"
           end
       | _, _ => "Faltan datos"
       end, d).
Proof.
  intros Hb Hp. destruct k; unfold finish, pending_challenge in Hp |- *.
  - unfold register_verify. rewrite Hb.
    destruct (truthy (Some name)) as [n|] eqn:Hn; [|done].
    apply truthy_Some in Hn as [[= <-] _].
    destruct (body_credential body); [|done].
    destruct (users d !! name); [|done].
    by destruct (regOptions d !! name).
  - unfold login_verify. rewrite Hb.
    destruct (truthy (Some name)) as [n|] eqn:Hn; [|done].
    apply truthy_Some in Hn as [[= <-] _].
    destruct (body_credential body); [|done].
    destruct (users d !! name); [|done].
    by destruct (authOptions d !! name).
Qed.

(** A verify request that carries a name and a credential leaves no
    pending challenge of its kind for that name, from a consistent
    state. *)
Lemma finish_clears k body d name cred :
  consistent d →
  body_username body = Some name → name ≠ "" →
  body_credential body = Some cred →
  pending_challenge k name (finish k body d).2 = None.
Proof.
  intros Hd Hb Hne Hc.
  destruct (pending_challenge k name d) as [c|] eqn:Hp;
    [|by rewrite (finish_no_pending k body d name Hb Hp)].
  destruct (users d !! name) as [user|] eqn:Hu;
    [|by rewrite (consistent_unknown_user k name d Hd Hu) in Hp].
  assert (truthy (body_username body) = Some name) as Hn
    by (rewrite Hb; by apply truthy_intro).
  destruct k; simpl in *.
  - destruct (regOptions d !! name) as [opts|] eqn:Ho; [|done].
    rewrite (register_verify_reached body d name cred user opts Hn Hc Hu Ho).
    simpl. by rewrite lookup_delete_eq.
  - destruct (authOptions d !! name) as [opts|] eqn:Ho; [|done].
    rewrite (login_verify_reached body d name cred user opts Hn Hc Hu Ho).
    simpl. by rewrite lookup_delete_eq.
Qed.

Lemma finish_users_known k body d name :
  is_Some (users d !! name) → is_Some (users (finish k body d).2 !! name).
Proof.
  intros [user Hu].
  destruct k; simpl.
  - destruct (handle_users_grow (RegisterVerify body) d name user Hu) as (u' & Hu' & _).
    by eauto.
  - destruct (handle_users_grow (LoginVerify body) d name user Hu) as (u' & Hu' & _).
    by eauto.
Qed.

(** C9: [getOrCreateUser] returns the stored user and changes nothing
    when the name is known, and stores a user without passkeys when it
    is not; either way the user it returns is the one stored under the
    name afterwards, and a second call returns the same user and leaves
    the tables as the first call left them. *)
Theorem getOrCreateUser_idempotent name d :
  match users d !! name with
  | Some user => getOrCreateUser name d = (user, d)
  | None =>
      getOrCreateUser name d =
        ({| username := name; passkeys := [] |},
         set_users (insert name {| username := name; passkeys := [] |}) d)
  end
  ∧ users (getOrCreateUser name d).2 !! name = Some (getOrCreateUser name d).1
  ∧ getOrCreateUser name (getOrCreateUser name d).2 = getOrCreateUser name d.
Proof.
  split; [|split].
  - unfold getOrCreateUser. by destruct (users d !! name).
  - apply getOrCreateUser_lookup.
  - pose proof (getOrCreateUser_lookup name d) as Hl.
    destruct (getOrCreateUser name d) as [user d1]; simpl in *.
    unfold getOrCreateUser. by rewrite Hl.
Qed.

(** C10: a registration request leaves [db.authOptions] as it is, a
    login request leaves [db.regOptions] as it is, and neither touches
    the entry its own cache holds for another user name. *)
Theorem caches_independent r d other :
  body_username (request_body r) ≠ Some other →
  match r with
  | RegisterOptions _ _ | RegisterVerify _ =>
      authOptions (handle r d).2 = authOptions d
      ∧ regOptions (handle r d).2 !! other = regOptions d !! other
  | LoginOptions _ _ | LoginVerify _ =>
      regOptions (handle r d).2 = regOptions d
      ∧ authOptions (handle r d).2 !! other = authOptions d !! other
  end.
Proof.
  intros Hne. destruct r as [rnd body|body|rnd body|body]; simpl in *; split.
  - apply register_options_authOptions.
  - by apply register_options_regOptions.
  - apply register_verify_authOptions.
  - by apply register_verify_regOptions.
  - apply login_options_regOptions.
  - by apply login_options_authOptions.
  - apply login_verify_regOptions.
  - by apply login_verify_authOptions.
Qed.

(** C4 (amended): a verify request for a name without pending options
    of its kind answers 400 and leaves the three tables as they were.
    The message is the one for missing options when the request carries
    a non-empty name and a credential and the user exists; it is
    "Usuario no existe" when the user is unknown and "Faltan datos" when
    the name is empty or the credential is missing. *)
Theorem finish_without_pending k body d name :
  body_username body = Some name →
  pending_challenge k name d = None →
  (finish k body d).2 = d
  ∧ (finish k body d).1 =
      Reply400
        match truthy (Some name), body_credential body with
        | Some _, Some _ =>
            match users d !! name with
            | Some _ => NoPendingChallenge k
            | None => "Usuario no existe"
            end
        | _, _ => "Faltan datos"
        end.
Proof. intros Hb Hp. by rewrite (finish_no_pending k body d name Hb Hp). Qed.

(** C1 (amended): after a verify request that carries a non-empty name
    and a credential, no challenge of that kind is pending for the name,
    however the verification ended; a second such request right after
    it answers 400 with the message for missing options (with "Usuario
    no existe" when the user is unknown). *)
Theorem finish_evicts_challenge k body body' d name cred cred' :
  reachable d →
  body_username body = Some name → name ≠ "" →
  body_credential body = Some cred →
  body_username body' = Some name →
  body_credential body' = Some cred' →
  pending_challenge k name (finish k body d).2 = None
  ∧ (finish k body' (finish k body d).2).1 =
      Reply400
        match users d !! name with
        | Some _ => NoPendingChallenge k
        | None => "Usuario no existe"
        end.
Proof.
  intros Hd Hb Hne Hc Hb' Hc'.
  apply reachable_consistent in Hd.
  pose proof (finish_clears k body d name cred Hd Hb Hne Hc) as Hclear.
  split; [done|].
  rewrite (finish_no_pending k body' _ name Hb' Hclear).
  rewrite (truthy_intro name Hne), Hc'. simpl. f_equal.
  destruct (users d !! name) as [user|] eqn:Hu.
  - destruct (finish_users_known k body d name) as [u' ->]; by eauto.
  - rewrite (finish_no_pending k body d name Hb
      (consistent_unknown_user k name d Hd Hu)).
    simpl. by rewrite Hu.
Qed.

(** ** Registration finish and the credential store *)

(** C3: a registration finish that reaches the verification answers
    [{ verified }] as the verifier reported it.  When the result is
    verified and carries [registrationInfo], one passkey is appended to
    the passkeys of the named user, with the id, public key, counter and
    transports of the reported credential and the reported device type
    and backup flag, and nothing else in [db.users] changes.  When the
    result is not verified the answer is [verified: false], when the
    verifier throws it is 400 with the message, and [db.users] is left
    as it was; so it is for a result that says verified but carries no
    [registrationInfo]. *)
Theorem register_verify_store body d name cred user opts :
  body_username body = Some name → name ≠ "" →
  body_credential body = Some cred →
  users d !! name = Some user →
  regOptions d !! name = Some opts →
  match verifyRegistrationResponse (verify_registration_opts cred opts) with
  | Resolved v =>
      match reg_verified v, registrationInfo v with
      | true, Some info =>
          (register_verify body d).1 = ReplyVerified true
          ∧ users (register_verify body d).2 =
              <[name :=
                  {| username := username user;
                     passkeys :=
                       passkeys user
                       ++ [ {| pk_id := cred_id (credential info);
                               pk_publicKey := cred_publicKey (credential info);
                               pk_counter := cred_counter (credential info);
                               pk_transports := cred_transports (credential info);
                               pk_deviceType := credentialDeviceType info;
                               pk_backedUp := credentialBackedUp info |} ] |}]>
                (users d)
      | false, _ =>
          (register_verify body d).1 = ReplyVerified false
          ∧ users (register_verify body d).2 = users d
      | true, None =>
          (register_verify body d).1 = ReplyVerified true
          ∧ users (register_verify body d).2 = users d
      end
  | Rejected msg =>
      (register_verify body d).1 = Reply400 msg
      ∧ users (register_verify body d).2 = users d
  end.
Proof.
  intros Hb Hne Hc Hu Ho.
  assert (truthy (body_username body) = Some name) as Hn
    by (rewrite Hb; by apply truthy_intro).
  rewrite (register_verify_reached body d name cred user opts Hn Hc Hu Ho).
  destruct (verifyRegistrationResponse _) as [v|msg]; simpl; [|done].
  unfold registered_passkey.
  destruct (reg_verified v); [|done].
  by destruct (registrationInfo v).
Qed.

(** ** Authentication finish and the signature counter *)

Lemma find_passkey_Some cred l i pk :
  find_passkey cred l = Some (i, pk) →
  l !! i = Some pk ∧ cj_id cred = Some (pk_id pk).
Proof. unfold find_passkey. intros Hf. apply list_find_Some in Hf. tauto. Qed.




(** With such a verifier no request of any kind lowers a stored
    counter, and a passkey keeps its position and its id. *)
Lemma handle_counters_grow r d name user j pk :
  verifier_keeps_counters →
  users d !! name = Some user →
  passkeys user !! j = Some pk →
  ∃ user' pk',
    users (handle r d).2 !! name = Some user'
    ∧ passkeys user' !! j = Some pk'
    ∧ pk_id pk' = pk_id pk
    ∧ (pk_counter pk ≤ pk_counter pk')%N.
Proof.
  intros Hkeep Hu Hj.
  assert (∃ user' pk', users d !! name = Some user' ∧ passkeys user' !! j = Some pk'
            ∧ pk_id pk' = pk_id pk ∧ (pk_counter pk ≤ pk_counter pk')%N) as Hsame
    by (exists user, pk; repeat split; (done || lia)).
  destruct r as [rnd body|body|rnd body|body]; simpl.
  - exists user, pk. split; [by apply register_options_users|].
    repeat split; (done || lia).
  - unfold register_verify.
    destruct (truthy _) as [n|]; [|done].
    destruct (body_credential body) as [cred|]; [|done].
    destruct (users d !! n) as [u|] eqn:Hn; [|done].
    destruct (regOptions d !! n) as [opts|]; [|done].
    simpl. destruct (verifyRegistrationResponse _) as [v|msg]; simpl; [|done].
    destruct (registered_passkey v) as [new|]; simpl; [|done].
    destruct (decide (n = name)) as [->|Hne].
    + rewrite lookup_insert_eq. eexists _, pk. split; [reflexivity|]. simpl.
      rewrite Hu in Hn. injection Hn as <-.
      split; [by apply lookup_app_l_Some|]. split; [done | lia].
    + rewrite lookup_insert_ne by done. done.
  - rewrite login_options_users. done.
  - unfold login_verify.
    destruct (truthy _) as [n|]; [|done].
    destruct (body_credential body) as [cred|]; [|done].
    destruct (users d !! n) as [u|] eqn:Hn; [|done].
    destruct (authOptions d !! n) as [opts|]; [|done].
    simpl. destruct (find_passkey cred (passkeys u)) as [[i found]|] eqn:Hf; [|done].
    apply find_passkey_Some in Hf as [Hi _].
    destruct (verifyAuthenticationResponse _) as [v|msg] eqn:Hv; simpl; [|done].
    destruct (accepted_counter v) as [c|] eqn:Hc; simpl; [|done].
    destruct (decide (n = name)) as [->|Hne];
      [|by rewrite lookup_insert_ne by done].
    rewrite lookup_insert_eq. rewrite Hu in Hn. injection Hn as <-.
    destruct (decide (j = i)) as [->|Hji].
    + eexists _, _. split; [reflexivity|]. simpl.
      split; [apply list_lookup_insert_eq; by eapply lookup_lt_Some|].
      rewrite Hi in Hj. injection Hj as <-. simpl.
      split; [done | exact (Hkeep _ v c Hv Hc)].
    + eexists _, pk. split; [reflexivity|]. simpl.
      split; [by rewrite list_lookup_insert_ne|]. split; [done | lia].
Qed.

Lemma run_counters_grow rs d name user j pk :
  verifier_keeps_counters →
  users d !! name = Some user →
  passkeys user !! j = Some pk →
  ∃ user' pk',
    users (run rs d) !! name = Some user'
    ∧ passkeys user' !! j = Some pk'
    ∧ pk_id pk' = pk_id pk
    ∧ (pk_counter pk ≤ pk_counter pk')%N.
Proof.
  intros Hkeep. revert d user pk.
  induction rs as [|r rs IH]; intros d user pk Hu Hj; simpl.
  - exists user, pk. repeat split; (done || lia).
  - destruct (handle_counters_grow r d name user j pk Hkeep Hu Hj)
      as (u1 & pk1 & Hu1 & Hj1 & Hid1 & Hle1).
    destruct (IH _ u1 pk1 Hu1 Hj1) as (u2 & pk2 & Hu2 & Hj2 & Hid2 & Hle2).
    exists u2, pk2. repeat split; (done || congruence || lia).
Qed.

(** ** Login options *)

(** C7: a login options request for an unknown user, or for a user
    without passkeys, answers 400 ("Usuario no existe", "Usuario sin
    passkeys"), leaves the tables as they were, and no authentication
    challenge is pending for that name afterwards. *)
Theorem login_options_rejects rnd body d name :
  reachable d →
  body_username body = Some name → name ≠ "" →
  passkeys_of name d = [] →
  login_options rnd body d =
    (Reply400
       match users d !! name with
       | None => "Usuario no existe"
       | Some _ => "Usuario sin passkeys"
       end, d)
  ∧ pending_challenge Authentication name (login_options rnd body d).2 = None.
Proof.
  intros Hd Hb Hne Hp.
  apply reachable_consistent in Hd as [_ Hauth].
  assert (login_options rnd body d =
    (Reply400
       match users d !! name with
       | None => "Usuario no existe"
       | Some _ => "Usuario sin passkeys"
       end, d)) as Heq.
  { unfold login_options. rewrite Hb, (truthy_intro name Hne).
    unfold passkeys_of in Hp.
    destruct (users d !! name) as [user|]; [|done].
    simpl in Hp. by rewrite Hp. }
  split; [done|]. rewrite Heq. simpl.
  destruct (authOptions d !! name) eqn:Ho; [|done].
  destruct (Hauth name); by eauto.
Qed.

(** ** One active challenge per name and kind *)

(** An options request that hands out a challenge leaves that challenge
    pending for the name, and the user exists afterwards. *)
Lemma begin_issued k rnd body d name c :
  body_username body = Some name →
  issued_challenge (begin k rnd body d).1 = Some c →
  name ≠ ""
  ∧ pending_challenge k name (begin k rnd body d).2 = Some c
  ∧ is_Some (users (begin k rnd body d).2 !! name)
  ∧ match k with
    | Registration =>
        ∃ a o, generateRegistrationOptions a rnd = Resolved o ∧ reg_challenge o = c
    | Authentication =>
        ∃ a o, generateAuthenticationOptions a rnd = Resolved o ∧ auth_challenge o = c
    end.
Proof.
  intros Hb. destruct k; simpl.
  - unfold register_options. rewrite Hb.
    destruct (truthy (Some name)) as [n|] eqn:Hn; [|done].
    apply truthy_Some in Hn as [[= <-] Hne].
    pose proof (getOrCreateUser_lookup name d) as Hl.
    destruct (getOrCreateUser name d) as [user d1]; simpl in Hl.
    destruct (generateRegistrationOptions _ _) as [o|msg] eqn:Hg; simpl; [|done].
    intros [= <-]. rewrite lookup_insert_eq. by eauto 10.
  - unfold login_options. rewrite Hb.
    destruct (truthy (Some name)) as [n|] eqn:Hn; [|done].
    apply truthy_Some in Hn as [[= <-] Hne].
    destruct (users d !! name) as [user|] eqn:Hu; [|done].
    destruct (passkeys user); [done|].
    destruct (generateAuthenticationOptions _ _) as [o|msg] eqn:Hg; simpl; [|done].
    intros [= <-]. rewrite lookup_insert_eq. by eauto 10.
Qed.






(** ** Credential ids *)

Lemma set_counter_ids (l : list Passkey) (i : nat) pk n :
  l !! i = Some pk →
  pk_id <$> <[i := set_counter n pk]> l = pk_id <$> l.
Proof.
  intros Hi. rewrite list_fmap_insert. simpl.
  apply list_insert_id. by rewrite list_lookup_fmap, Hi.
Qed.

(** C8 (amended): the handlers never check a credential id against the
    ones on file.  Ids that are pairwise distinct within each user stay
    so through every request that does not register an id its user
    already has; every request but a registration finish that pushes a
    passkey is of this kind. *)
Theorem unique_ids_preserved r d :
  unique_ids d → registers_new_id r d → unique_ids (handle r d).2.
Proof.
  intros Huniq Hnew name user. destruct r as [rnd body|body|rnd body|body]; simpl.
  - unfold register_options.
    destruct (truthy _) as [n|]; [|by apply Huniq].
    assert (users (getOrCreateUser n d).2 !! name = Some user →
            NoDup (pk_id <$> passkeys user)) as Hg.
    { unfold getOrCreateUser. destruct (users d !! n) eqn:Hn; simpl; [by apply Huniq|].
      destruct (decide (n = name)) as [->|Hne].
      - rewrite lookup_insert_eq. intros [= <-]. simpl. constructor.
      - rewrite lookup_insert_ne by done. by apply Huniq. }
    destruct (getOrCreateUser n d) as [u d1]; simpl in Hg.
    by destruct (generateRegistrationOptions _ _).
  - unfold register_verify.
    destruct (truthy _) as [n|] eqn:Hn; [|by apply Huniq].
    destruct (body_credential body) as [cred|] eqn:Hc; [|by apply Huniq].
    destruct (users d !! n) as [u|] eqn:Hu; [|by apply Huniq].
    destruct (regOptions d !! n) as [opts|] eqn:Ho; [|by apply Huniq].
    simpl.
    destruct (verifyRegistrationResponse _) as [v|msg] eqn:Hv; simpl;
      [|by apply Huniq].
    destruct (registered_passkey v) as [pk|] eqn:Hpk; simpl; [|by apply Huniq].
    destruct (decide (n = name)) as [->|Hne].
    + rewrite lookup_insert_eq. intros [= <-]. simpl.
      rewrite fmap_app. simpl. apply NoDup_app. split; [by eapply Huniq|].
      split; [|apply NoDup_singleton].
      intros x Hx ->%list_elem_of_singleton.
      by apply (Hnew name cred u opts v pk).
    + rewrite lookup_insert_ne by done. by apply Huniq.
  - rewrite login_options_users. by apply Huniq.
  - unfold login_verify.
    destruct (truthy _) as [n|] eqn:Hn; [|by apply Huniq].
    destruct (body_credential body) as [cred|] eqn:Hc; [|by apply Huniq].
    destruct (users d !! n) as [u|] eqn:Hu; [|by apply Huniq].
    destruct (authOptions d !! n) as [opts|] eqn:Ho; [|by apply Huniq].
    simpl.
    destruct (find_passkey cred (passkeys u)) as [[i pk]|] eqn:Hf; [|by apply Huniq].
    apply find_passkey_Some in Hf as [Hi _].
    destruct (verifyAuthenticationResponse _) as [v|msg]; simpl; [|by apply Huniq].
    destruct (accepted_counter v) as [c|]; simpl; [|by apply Huniq].
    destruct (decide (n = name)) as [->|Hne].
    + rewrite lookup_insert_eq. intros [= <-]. simpl.
      rewrite (set_counter_ids _ _ _ _ Hi). by eapply Huniq.
    + rewrite lookup_insert_ne by done. by apply Huniq.
Qed.

End Properties.

(** * The handlers at work *)

(** The statements above, and the places where the handlers do less
    than one might expect of them, on runs of the server with
    [demoLib]. *)

#[local] Existing Instance demoConfig.

Example alice_registers_users :
  users (demo 5 N.succ alice_registers) !! "alice"
  = Some {| username := "alice";
            passkeys := [ {| pk_id := "k1"; pk_publicKey := []; pk_counter := 5;
                             pk_transports := None; pk_deviceType := singleDevice;
                             pk_backedUp := false |} ] |}.
Proof. vm_compute. reflexivity. Qed.

Lemma demo_reachable init next rs : reachable (lib := demoLib init next) (demo init next rs).
Proof. apply run_reachable, reachable_start. Qed.


(** ** C1 *)

(** A verify request without a credential stops at the first guard:
    the challenge issued to alice is still pending after it. *)
Lemma finish_without_credential_keeps_challenge :
  let d := demo 5 N.succ alice_begins in
  let body := only_username "alice" in
  finish (lib := demoLib 5 N.succ) Registration body d
    = (Reply400 "Faltan datos", d)
  ∧ pending_challenge Registration "alice"
      (finish (lib := demoLib 5 N.succ) Registration body d).2 = Some "c1".
Proof. split; vm_compute; reflexivity. Qed.

Lemma finish_evicts_challenge_witness :
  let d := demo 5 N.succ alice_begins in
  let body := with_credential "alice" "k1" "c1" in
  pending_challenge Registration "alice"
    (finish (lib := demoLib 5 N.succ) Registration body d).2 = None
  ∧ (finish (lib := demoLib 5 N.succ) Registration body
       (finish (lib := demoLib 5 N.succ) Registration body d).2).1
    = Reply400 "No hay options de registro activas".
Proof.
  intros d body.
  exact (finish_evicts_challenge (lib := demoLib 5 N.succ) Registration body body d
           "alice" {| cj_id := Some "k1"; cj_response := "c1" |}
           {| cj_id := Some "k1"; cj_response := "c1" |}
           (demo_reachable 5 N.succ alice_begins)
           eq_refl ltac:(discriminate) eq_refl eq_refl eq_refl).
Defined.

(** ** C2 *)



(** ** C3 *)

Lemma register_verify_store_witness :
  let d := run (lib := richLib) alice_begins_again db0 in
  let body := with_credential "alice" "k2" "c3" in
  (register_verify (lib := richLib) body d).1 = ReplyVerified true
  ∧ users (register_verify (lib := richLib) body d).2
    = <["alice" := {| username := "alice";
                      passkeys := [rich_stored "k1"] ++ [rich_stored "k2"] |}]>
        (users d).
Proof.
  intros d body.
  exact (register_verify_store (lib := richLib) body d "alice"
           {| cj_id := Some "k2"; cj_response := "c3" |}
           {| username := "alice"; passkeys := [rich_stored "k1"] |}
           {| reg_challenge := "c3";
              reg_rpID := "localhost";
              reg_userName := "alice";
              reg_excludeCredentials :=
                [ {| desc_id := "k1";
                     desc_transports := Some ["internal"; "hybrid"] |} ] |}
           eq_refl ltac:(discriminate) eq_refl
           ltac:(vm_compute; reflexivity) ltac:(vm_compute; reflexivity)).
Defined.

(** ** C4 *)

(** A verify request for a name the server has never seen: no options
    are pending, and the answer is the one for an unknown user. *)
Lemma finish_for_unknown_user :
  let body := with_credential "alice" "k1" "c1" in
  pending_challenge Registration "alice" db0 = None
  ∧ pending_challenge Authentication "alice" db0 = None
  ∧ finish (lib := demoLib 5 N.succ) Registration body db0
    = (Reply400 "Usuario no existe", db0)
  ∧ finish (lib := demoLib 5 N.succ) Authentication body db0
    = (Reply400 "Usuario no existe", db0)
  ∧ "Usuario no existe" ≠ NoPendingChallenge Registration
  ∧ "Usuario no existe" ≠ NoPendingChallenge Authentication.
Proof. repeat split; try (vm_compute; reflexivity); discriminate. Qed.

Lemma finish_without_pending_witness :
  let d := demo 5 N.succ alice_registers in
  let body := with_credential "alice" "k1" "c1" in
  (finish (lib := demoLib 5 N.succ) Registration body d).2 = d
  ∧ (finish (lib := demoLib 5 N.succ) Registration body d).1
    = Reply400 "No hay options de registro activas".
Proof.
  intros d body.
  exact (finish_without_pending (lib := demoLib 5 N.succ) Registration body d "alice"
           eq_refl ltac:(vm_compute; reflexivity)).
Defined.

(** ** C5 *)



(** The response that answers the replaced challenge "c1" is turned
    down, and the verify request consumes the challenge "c2". *)
Example replaced_challenge_rejected :
  let body := only_username "alice" in
  let d2 := (begin (lib := demoLib 5 N.succ) Registration "c2" body
               (begin (lib := demoLib 5 N.succ) Registration "c1" body db0).2).2 in
  (finish (lib := demoLib 5 N.succ) Registration
     (with_credential "alice" "k1" "c1") d2).1
  = Reply400 "Unexpected registration response challenge".
Proof. vm_compute. reflexivity. Qed.

(** ** C6 *)


(** ** C7 *)

Lemma login_options_rejects_witness :
  let d := demo 5 N.succ alice_begins in
  login_options (lib := demoLib 5 N.succ) "c2" (only_username "alice") d
  = (Reply400 "Usuario sin passkeys", d)
  ∧ pending_challenge Authentication "alice"
      (login_options (lib := demoLib 5 N.succ) "c2" (only_username "alice") d).2 = None.
Proof.
  intros d.
  exact (login_options_rejects (lib := demoLib 5 N.succ) "c2" (only_username "alice") d
           "alice" (demo_reachable 5 N.succ alice_begins)
           eq_refl ltac:(discriminate) ltac:(vm_compute; reflexivity)).
Defined.

(** ** C8 *)

(** A client that registers the credential id "k1" twice (each time
    answering the challenge it was given) ends up with two passkeys of
    that id on file. *)
Lemma same_id_registered_twice :
  let d := demo 5 N.succ alice_registers_twice in
  unique_ids (demo 5 N.succ alice_registers)
  ∧ pk_id <$> passkeys_of "alice" d = ["k1"; "k1"]
  ∧ ¬ unique_ids d.
Proof.
  intros d. split; [|split].
  - change (map_Forall (λ (_ : string) user, NoDup (pk_id <$> passkeys user))
              (users (demo 5 N.succ alice_registers))).
    compute_done.
  - vm_compute. reflexivity.
  - intros Hu.
    destruct (users d !! "alice") as [u|] eqn:E; [|vm_compute in E; discriminate].
    specialize (Hu _ _ E). vm_compute in E. injection E as <-.
    simpl in Hu. apply NoDup_cons in Hu as [Hin _]. apply Hin. left.
Qed.

Lemma unique_ids_preserved_witness :
  unique_ids
    (handle (lib := demoLib 5 N.succ)
       (RegisterVerify (with_credential "alice" "k1" "c1"))
       (demo 5 N.succ alice_begins)).2.
Proof.
  apply (unique_ids_preserved (lib := demoLib 5 N.succ)).
  - change (map_Forall (λ (_ : string) user, NoDup (pk_id <$> passkeys user))
              (users (demo 5 N.succ alice_begins))).
    compute_done.
  - intros name cred user opts v pk Hn Hc Hu Ho Hv Hpk.
    injection Hn as <-. injection Hc as <-.
    vm_compute in Hu. injection Hu as <-.
    simpl. apply not_elem_of_nil.
Defined.

(** ** C10 *)

Lemma caches_independent_witness :
  let d := demo 5 N.succ alice_and_bob in
  let r := RegisterVerify (with_credential "alice" "k1" "c5") in
  authOptions (handle (lib := demoLib 5 N.succ) r d).2 = authOptions d
  ∧ regOptions (handle (lib := demoLib 5 N.succ) r d).2 !! "bob"
    = regOptions d !! "bob".
Proof.
  intros d r.
  exact (caches_independent (lib := demoLib 5 N.succ) r d "bob" ltac:(discriminate)).
Defined.

(** alice finishes her second registration: her login challenge and
    the registration challenge of bob are still pending, her own
    registration challenge is gone. *)
Example alice_finishes_registration :
  let d := (handle (lib := demoLib 5 N.succ)
              (RegisterVerify (with_credential "alice" "k2" "c5"))
              (demo 5 N.succ alice_and_bob)).2 in
  pending_challenge Authentication "alice" d = Some "c2"
  ∧ pending_challenge Registration "bob" d = Some "c4"
  ∧ pending_challenge Registration "alice" d = None
  ∧ pk_id <$> passkeys_of "alice" d = ["k1"; "k2"].
Proof. repeat split; vm_compute; reflexivity. Qed.

(** * Further properties of the handlers *)

Section Further.
Context {lib : SimpleWebAuthn} {cfg : Config}.

(** ** The user table *)

Lemma well_keyed_start : well_keyed db0.
Proof. intros name user Hu. simpl in Hu. by rewrite lookup_empty in Hu. Qed.

Lemma well_keyed_insert d name user :
  well_keyed d → username user = name → name ≠ "" →
  well_keyed (set_users (insert name user) d).
Proof.
  intros Hd Hn Hne other u. simpl.
  destruct (decide (name = other)) as [<-|Hother].
  - rewrite lookup_insert_eq. by intros [= <-].
  - rewrite lookup_insert_ne by done. apply Hd.
Qed.

Lemma handle_well_keyed r d : well_keyed d → well_keyed (handle r d).2.
Proof.
  intros Hd. destruct r as [rnd body|body|rnd body|body]; simpl.
  - unfold register_options.
    destruct (truthy _) as [n|] eqn:Hn; [|done].
    apply truthy_Some in Hn as [_ Hne].
    assert (well_keyed (getOrCreateUser n d).2) as Hg.
    { unfold getOrCreateUser. destruct (users d !! n); simpl; [done|].
      by apply well_keyed_insert. }
    destruct (getOrCreateUser n d) as [u d1]; simpl in Hg.
    by destruct (generateRegistrationOptions _ _).
  - unfold register_verify.
    destruct (truthy _) as [n|] eqn:Hn; [|done].
    destruct (body_credential body) as [cred|]; [|done].
    destruct (users d !! n) as [u|] eqn:Hu; [|done].
    destruct (regOptions d !! n) as [opts|]; [|done].
    simpl. destruct (verifyRegistrationResponse _) as [v|msg]; simpl; [|done].
    destruct (registered_passkey v) as [pk|]; simpl; [|done].
    destruct (Hd n u Hu) as [Hname Hne].
    by apply (well_keyed_insert d n _ Hd).
  - intros name user. rewrite login_options_users. apply Hd.
  - unfold login_verify.
    destruct (truthy _) as [n|] eqn:Hn; [|done].
    destruct (body_credential body) as [cred|]; [|done].
    destruct (users d !! n) as [u|] eqn:Hu; [|done].
    destruct (authOptions d !! n) as [opts|]; [|done].
    simpl. destruct (find_passkey cred (passkeys u)) as [[i pk]|]; [|done].
    destruct (verifyAuthenticationResponse _) as [v|msg]; simpl; [|done].
    destruct (accepted_counter v) as [c|]; simpl; [|done].
    destruct (Hd n u Hu) as [Hname Hne].
    by apply (well_keyed_insert d n _ Hd).
Qed.

(** X1: in every state the server reaches, the user stored under a name
    carries that name, and no user is stored under the empty name. *)
Theorem users_keyed_by_name d name user :
  reachable d →
  users d !! name = Some user →
  username user = name ∧ name ≠ "".
Proof.
  intros Hd. revert name user. change (well_keyed d).
  induction Hd as [|r d _ IH]; [apply well_keyed_start | by apply handle_well_keyed].
Qed.

Lemma handle_users_frame r d other :
  body_username (request_body r) ≠ Some other →
  users (handle r d).2 !! other = users d !! other.
Proof.
  intros Hne. destruct r as [rnd body|body|rnd body|body]; simpl in *.
  - unfold register_options.
    destruct (truthy _) as [n|] eqn:Hn; [|done].
    apply truthy_Some in Hn as [Hn _].
    assert (users (getOrCreateUser n d).2 !! other = users d !! other) as Hg.
    { unfold getOrCreateUser. destruct (users d !! n); simpl; [done|].
      rewrite lookup_insert_ne; [done | congruence]. }
    destruct (getOrCreateUser n d) as [u d1]; simpl in Hg.
    by destruct (generateRegistrationOptions _ _).
  - unfold register_verify.
    destruct (truthy _) as [n|] eqn:Hn; [|done].
    apply truthy_Some in Hn as [Hn _].
    destruct (body_credential body) as [cred|]; [|done].
    destruct (users d !! n) as [u|] eqn:Hu; [|done].
    destruct (regOptions d !! n) as [opts|]; [|done].
    simpl. destruct (verifyRegistrationResponse _) as [v|msg]; simpl; [|done].
    destruct (registered_passkey v) as [pk|]; simpl; [|done].
    rewrite lookup_insert_ne; [done | congruence].
  - by rewrite login_options_users.
  - unfold login_verify.
    destruct (truthy _) as [n|] eqn:Hn; [|done].
    apply truthy_Some in Hn as [Hn _].
    destruct (body_credential body) as [cred|]; [|done].
    destruct (users d !! n) as [u|] eqn:Hu; [|done].
    destruct (authOptions d !! n) as [opts|]; [|done].
    simpl. destruct (find_passkey cred (passkeys u)) as [[i pk]|]; [|done].
    destruct (verifyAuthenticationResponse _) as [v|msg]; simpl; [|done].
    destruct (accepted_counter v) as [c|]; simpl; [|done].
    rewrite lookup_insert_ne; [done | congruence].
Qed.

(** What a request leaves alone: everything stored under another name. *)
Lemma handle_frame r d other :
  body_username (request_body r) ≠ Some other →
  agree_on other (handle r d).2 d.
Proof.
  intros Hne. split; [by apply handle_users_frame|].
  destruct r as [rnd body|body|rnd body|body]; simpl in *.
  - by rewrite register_options_regOptions, register_options_authOptions.
  - by rewrite register_verify_regOptions, register_verify_authOptions.
  - by rewrite login_options_regOptions, login_options_authOptions.
  - by rewrite login_verify_regOptions, login_verify_authOptions.
Qed.

Lemma run_frame rs d other :
  (∀ r, r ∈ rs → body_username (request_body r) ≠ Some other) →
  agree_on other (run rs d) d.
Proof.
  revert d. induction rs as [|r rs IH]; intros d Hrs; simpl; [done|].
  destruct (IH (handle r d).2) as (Hu & Hr & Ha);
    [intros r' Hin; apply Hrs; by right|].
  destruct (handle_frame r d other) as (Hu' & Hr' & Ha'); [apply Hrs; by left|].
  unfold agree_on. by rewrite Hu, Hr, Ha.
Qed.

(** What a request looks at: only what is stored under the name in its
    body.  On two states that agree under that name the reply is the
    same and the states agree under that name afterwards. *)
Lemma handle_reads r d d' :
  (∀ name, body_username (request_body r) = Some name → agree_on name d d') →
  (handle r d).1 = (handle r d').1
  ∧ ∀ name, body_username (request_body r) = Some name →
      agree_on name (handle r d).2 (handle r d').2.
Proof.
  intros Hagree. destruct r as [rnd body|body|rnd body|body]; simpl in *.
  - unfold register_options.
    destruct (truthy _) as [n|] eqn:Hn; [|split; [reflexivity | exact Hagree]].
    apply truthy_Some in Hn as [Hn _].
    destruct (Hagree n Hn) as (Hu & Hr & Ha).
    unfold getOrCreateUser. rewrite <- Hu.
    destruct (users d !! n) as [u|] eqn:Eu;
      (destruct (generateRegistrationOptions _ _) as [o|m]; simpl;
       (split; [done|]); intros name Hname; rewrite Hn in Hname;
       injection Hname as <-; unfold agree_on; simpl;
       rewrite ?lookup_insert_eq; by rewrite ?Eu, ?Hr, ?Ha, <- ?Hu).
  - unfold register_verify.
    destruct (truthy _) as [n|] eqn:Hn; [|split; [reflexivity | exact Hagree]].
    apply truthy_Some in Hn as [Hn _].
    destruct (body_credential body) as [cred|]; [|split; [reflexivity | exact Hagree]].
    destruct (Hagree n Hn) as (Hu & Hr & Ha).
    rewrite <- Hu, <- Hr.
    destruct (users d !! n) as [u|] eqn:Eu; [|split; [reflexivity | exact Hagree]].
    destruct (regOptions d !! n) as [opts|] eqn:Er; [|split; [reflexivity | exact Hagree]].
    simpl. destruct (verifyRegistrationResponse _) as [v|m]; simpl;
      [destruct (registered_passkey v) as [pk|]; simpl|];
      (split; [done|]); intros name Hname; rewrite Hn in Hname;
      injection Hname as <-; unfold agree_on; simpl;
      rewrite ?lookup_insert_eq, ?lookup_delete_eq; by rewrite ?Ha, <- ?Hu.
  - unfold login_options.
    destruct (truthy _) as [n|] eqn:Hn; [|split; [reflexivity | exact Hagree]].
    apply truthy_Some in Hn as [Hn _].
    destruct (Hagree n Hn) as (Hu & Hr & Ha).
    rewrite <- Hu.
    destruct (users d !! n) as [u|] eqn:Eu; [|split; [reflexivity | exact Hagree]].
    destruct (passkeys u); [split; [reflexivity | exact Hagree]|].
    destruct (generateAuthenticationOptions _ _) as [o|m]; simpl; [|split; [reflexivity | exact Hagree]].
    split; [done|]. intros name Hname. rewrite Hn in Hname.
    injection Hname as <-. unfold agree_on. simpl.
    rewrite ?lookup_insert_eq. by rewrite Hr, <- Hu.
  - unfold login_verify.
    destruct (truthy _) as [n|] eqn:Hn; [|split; [reflexivity | exact Hagree]].
    apply truthy_Some in Hn as [Hn _].
    destruct (body_credential body) as [cred|]; [|split; [reflexivity | exact Hagree]].
    destruct (Hagree n Hn) as (Hu & Hr & Ha).
    rewrite <- Hu, <- Ha.
    destruct (users d !! n) as [u|] eqn:Eu; [|split; [reflexivity | exact Hagree]].
    destruct (authOptions d !! n) as [opts|] eqn:Ea; [|split; [reflexivity | exact Hagree]].
    simpl. destruct (find_passkey cred (passkeys u)) as [[i pk]|]; simpl;
      [destruct (verifyAuthenticationResponse _) as [v|m]; simpl;
       [destruct (accepted_counter v) as [c|]; simpl|]|];
      (split; [done|]); intros name Hname; rewrite Hn in Hname;
      injection Hname as <-; unfold agree_on; simpl;
      rewrite ?lookup_insert_eq, ?lookup_delete_eq; by rewrite ?Hr, <- ?Hu.
Qed.

(** X2: a request reads and writes only what is stored under the name
    in its body.  What is stored under any other name (user, pending
    options of both kinds) is the same before and after; and on two
    states that agree under the name in the body, the reply is the same
    and what is stored under that name afterwards is the same. *)
Theorem request_touches_own_user r d d' other :
  body_username (request_body r) ≠ Some other →
  (∀ name, body_username (request_body r) = Some name → agree_on name d d') →
  agree_on other (handle r d).2 d
  ∧ (handle r d).1 = (handle r d').1
  ∧ ∀ name, body_username (request_body r) = Some name →
      agree_on name (handle r d).2 (handle r d').2.
Proof.
  intros Hne Hagree. split; [by apply handle_frame|]. by apply handle_reads.
Qed.

(** ** Passkeys once registered *)

(** One request: the passkey at a position stays at that position and
    differs at most in its counter; and its counter can change only if
    no passkey in front of it has the same id. *)
Lemma handle_passkey r d name user j pk :
  users d !! name = Some user →
  passkeys user !! j = Some pk →
  ∃ user' pk',
    users (handle r d).2 !! name = Some user'
    ∧ passkeys user' !! j = Some pk'
    ∧ same_key pk pk'
    ∧ (pk' = pk
       ∨ ∀ i pki, (i < j)%nat → passkeys user !! i = Some pki → pk_id pki ≠ pk_id pk).
Proof.
  intros Hu Hj.
  assert (∃ user' pk', users d !! name = Some user' ∧ passkeys user' !! j = Some pk'
            ∧ same_key pk pk'
            ∧ (pk' = pk ∨ ∀ i pki, (i < j)%nat → passkeys user !! i = Some pki →
                 pk_id pki ≠ pk_id pk)) as Hsame
    by (exists user, pk; unfold same_key; auto 10).
  destruct r as [rnd body|body|rnd body|body]; simpl.
  - exists user, pk. split; [by apply register_options_users|].
    unfold same_key; auto 10.
  - unfold register_verify.
    destruct (truthy _) as [n|]; [|done].
    destruct (body_credential body) as [cred|]; [|done].
    destruct (users d !! n) as [u|] eqn:Hn; [|done].
    destruct (regOptions d !! n) as [opts|]; [|done].
    simpl. destruct (verifyRegistrationResponse _) as [v|msg]; simpl; [|done].
    destruct (registered_passkey v) as [new|]; simpl; [|done].
    destruct (decide (n = name)) as [->|Hne].
    + rewrite lookup_insert_eq. eexists _, pk. split; [reflexivity|]. simpl.
      rewrite Hu in Hn. injection Hn as <-.
      split; [by apply lookup_app_l_Some|]. unfold same_key; auto 10.
    + rewrite lookup_insert_ne by done. done.
  - rewrite login_options_users. done.
  - unfold login_verify.
    destruct (truthy _) as [n|]; [|done].
    destruct (body_credential body) as [cred|]; [|done].
    destruct (users d !! n) as [u|] eqn:Hn; [|done].
    destruct (authOptions d !! n) as [opts|]; [|done].
    simpl. destruct (find_passkey cred (passkeys u)) as [[i found]|] eqn:Hf; [|done].
    unfold find_passkey in Hf. apply list_find_Some in Hf as (Hi & Hid & Hfirst).
    destruct (verifyAuthenticationResponse _) as [v|msg] eqn:Hv; simpl; [|done].
    destruct (accepted_counter v) as [c|] eqn:Hc; simpl; [|done].
    destruct (decide (n = name)) as [->|Hne];
      [|by rewrite lookup_insert_ne by done].
    rewrite lookup_insert_eq. rewrite Hu in Hn. injection Hn as <-.
    destruct (decide (j = i)) as [->|Hji].
    + eexists _, _. split; [reflexivity|]. simpl.
      split; [apply list_lookup_insert_eq; by eapply lookup_lt_Some|].
      rewrite Hi in Hj. injection Hj as <-.
      split; [by unfold same_key|]. right.
      intros i0 pki Hlt Hi0 Heq. apply (Hfirst i0 pki Hi0 Hlt). by rewrite Hid, Heq.
    + eexists _, pk. split; [reflexivity|]. simpl.
      split; [by rewrite list_lookup_insert_ne|]. unfold same_key; auto 10.
Qed.

(** X3: whatever requests follow, a stored passkey stays at its position
    in its user's list with the same id, public key, transports, device
    type and backup flag; users and passkeys are never removed. *)
Theorem passkeys_persist rs d name user j pk :
  users d !! name = Some user →
  passkeys user !! j = Some pk →
  ∃ user' pk',
    users (run rs d) !! name = Some user'
    ∧ passkeys user' !! j = Some pk'
    ∧ same_key pk pk'.
Proof.
  revert d user pk. induction rs as [|r rs IH]; intros d user pk Hu Hj; simpl.
  - exists user, pk. by unfold same_key.
  - destruct (handle_passkey r d name user j pk Hu Hj)
      as (u1 & pk1 & Hu1 & Hj1 & Hk1 & _).
    destruct (IH _ u1 pk1 Hu1 Hj1) as (u2 & pk2 & Hu2 & Hj2 & Hk2).
    exists u2, pk2. split; [done|]. split; [done|].
    unfold same_key in *. destruct_and!. repeat split; congruence.
Qed.

(** X4: a passkey registered behind another passkey of the same user
    with the same id is dead: [find] always stops at the earlier one, so
    no sequence of requests ever changes the later one, its counter
    included. *)
Theorem duplicate_id_shadowed rs d name user i j pki pkj :
  users d !! name = Some user →
  passkeys user !! i = Some pki →
  passkeys user !! j = Some pkj →
  (i < j)%nat →
  pk_id pki = pk_id pkj →
  ∃ user', users (run rs d) !! name = Some user'
           ∧ passkeys user' !! j = Some pkj.
Proof.
  revert d user pki. induction rs as [|r rs IH]; intros d user pki Hu Hi Hj Hlt Hid; simpl.
  - by eauto.
  - destruct (handle_passkey r d name user i pki Hu Hi)
      as (u1 & pki1 & Hu1 & Hi1 & (Hid1 & _) & _).
    destruct (handle_passkey r d name user j pkj Hu Hj)
      as (u1' & pkj1 & Hu1' & Hj1 & _ & Hchg).
    rewrite Hu1 in Hu1'. injection Hu1' as <-.
    destruct Hchg as [->|Hfirst]; [|by destruct (Hfirst i pki Hlt Hi)].
    apply (IH _ u1 pki1 Hu1 Hi1 Hj1 Hlt). congruence.
Qed.

(** X5: one request changes the credential ids on file for a name in
    one way only: a registration finish for that name, answered
    [verified: true], appends one id at the end.  Every other request,
    and every other outcome, leaves the ids of every user as they are. *)
Theorem ids_grow_by_one r d name :
  pk_id <$> passkeys_of name (handle r d).2 = pk_id <$> passkeys_of name d
  ∨ ∃ body (new_id : string),
      r = RegisterVerify body
      ∧ body_username body = Some name
      ∧ (handle r d).1 = ReplyVerified true
      ∧ pk_id <$> passkeys_of name (handle r d).2
        = ((pk_id <$> passkeys_of name d) ++ [new_id])%list.
Proof.
  unfold passkeys_of. destruct r as [rnd body|body|rnd body|body]; simpl.
  - left. unfold register_options.
    destruct (truthy _) as [n|]; [|done].
    assert (from_option passkeys [] (users (getOrCreateUser n d).2 !! name)
            = from_option passkeys [] (users d !! name)) as Hg.
    { unfold getOrCreateUser. destruct (users d !! n) eqn:Hn; simpl; [done|].
      destruct (decide (n = name)) as [->|Hne].
      - by rewrite lookup_insert_eq, Hn.
      - by rewrite lookup_insert_ne. }
    destruct (getOrCreateUser n d) as [u d1]; simpl in Hg.
    destruct (generateRegistrationOptions _ _); simpl; by rewrite Hg.
  - unfold register_verify.
    destruct (truthy _) as [n|] eqn:Hn; [|by left].
    apply truthy_Some in Hn as [Hn _].
    destruct (body_credential body) as [cred|]; [|by left].
    destruct (users d !! n) as [u|] eqn:Hu; [|by left].
    destruct (regOptions d !! n) as [opts|]; [|by left].
    simpl. destruct (verifyRegistrationResponse _) as [v|msg]; simpl; [|by left].
    unfold registered_passkey.
    destruct (reg_verified v); [|by left].
    destruct (registrationInfo v) as [info|]; simpl; [|by left].
    destruct (decide (n = name)) as [->|Hne].
    + right. exists body, (cred_id (credential info)).
      rewrite lookup_insert_eq, Hu. simpl. by rewrite fmap_app.
    + left. by rewrite lookup_insert_ne.
  - left. by rewrite login_options_users.
  - left. unfold login_verify.
    destruct (truthy _) as [n|]; [|done].
    destruct (body_credential body) as [cred|]; [|done].
    destruct (users d !! n) as [u|] eqn:Hu; [|done].
    destruct (authOptions d !! n) as [opts|]; [|done].
    simpl. destruct (find_passkey cred (passkeys u)) as [[i pk]|] eqn:Hf; [|done].
    apply find_passkey_Some in Hf as [Hi _].
    destruct (verifyAuthenticationResponse _) as [v|msg]; simpl; [|done].
    destruct (accepted_counter v) as [c|]; simpl; [|done].
    destruct (decide (n = name)) as [->|Hne].
    + rewrite lookup_insert_eq, Hu. simpl. by apply set_counter_ids.
    + by rewrite lookup_insert_ne.
Qed.

(** X6: a request answered 400 or [verified: false] leaves [db.users]
    as it was. *)
Theorem refused_requests_keep_users r d :
  refused (handle r d).1 = true →
  users (handle r d).2 = users d.
Proof.
  destruct r as [rnd body|body|rnd body|body]; simpl.
  - unfold register_options.
    destruct (truthy _) as [n|]; [|done].
    destruct (getOrCreateUser n d) as [u d1].
    by destruct (generateRegistrationOptions _ _).
  - unfold register_verify.
    destruct (truthy _) as [n|]; [|done].
    destruct (body_credential body) as [cred|]; [|done].
    destruct (users d !! n) as [u|]; [|done].
    destruct (regOptions d !! n) as [opts|]; [|done].
    simpl. destruct (verifyRegistrationResponse _) as [v|msg]; simpl; [|done].
    unfold registered_passkey. by destruct (reg_verified v).
  - intros _. apply login_options_users.
  - unfold login_verify.
    destruct (truthy _) as [n|]; [|done].
    destruct (body_credential body) as [cred|]; [|done].
    destruct (users d !! n) as [u|]; [|done].
    destruct (authOptions d !! n) as [opts|]; [|done].
    simpl. destruct (find_passkey cred (passkeys u)) as [[i pk]|]; [|done].
    destruct (verifyAuthenticationResponse _) as [v|msg]; simpl; [|done].
    unfold accepted_counter. by destruct (auth_verified v).
Qed.

(** ** Requests that stop early *)

(** X7: a request whose body has no [username], or an empty one, is
    answered 400 and changes none of the three tables; the options
    handlers say "Falta username", the verify handlers "Faltan datos". *)
Theorem no_username_no_effect r d :
  truthy (body_username (request_body r)) = None →
  handle r d =
    (Reply400
       match r with
       | RegisterOptions _ _ | LoginOptions _ _ => "Falta username"
       | RegisterVerify _ | LoginVerify _ => "Faltan datos"
       end, d).
Proof.
  intros Hn. destruct r as [rnd body|body|rnd body|body]; simpl in *.
  - unfold register_options. by rewrite Hn.
  - unfold register_verify. by rewrite Hn.
  - unfold login_options. by rewrite Hn.
  - unfold login_verify. by rewrite Hn.
Qed.

(** X8: an authentication finish whose credential id (possibly absent)
    matches no passkey of the user is answered 400 "Credencial no
    encontrada" without the verifier being consulted: [db.users] and
    [db.regOptions] stay as they were, and the pending authentication
    challenge is consumed all the same. *)
Theorem login_verify_unknown_credential body d name cred user opts :
  body_username body = Some name → name ≠ "" →
  body_credential body = Some cred →
  users d !! name = Some user →
  authOptions d !! name = Some opts →
  (∀ pk, pk ∈ passkeys user → cj_id cred ≠ Some (pk_id pk)) →
  login_verify body d
  = (Reply400 "Credencial no encontrada", set_authOptions (delete name) d).
Proof.
  intros Hb Hne Hc Hu Ho Hnone.
  assert (truthy (body_username body) = Some name) as Ht
    by (rewrite Hb; by apply truthy_intro).
  rewrite (login_verify_reached body d name cred user opts Ht Hc Hu Ho).
  destruct (find_passkey cred (passkeys user)) as [[i pk]|] eqn:Hf; [|done].
  apply find_passkey_Some in Hf as [Hi Hid].
  destruct (Hnone pk); [by eapply list_elem_of_lookup_2 | done].
Qed.

(** X9: [/register/options] has no [try] around the generator.  When the
    generator fails the exception leaves the handler, no options are
    cached (options pending from before stay pending), and yet the user
    looked up or created at the top of the handler is in [db.users]. *)
Theorem register_options_uncaught rnd body d name msg :
  body_username body = Some name → name ≠ "" →
  generateRegistrationOptions
    (registration_opts name (getOrCreateUser name d).1) rnd = Rejected msg →
  (register_options rnd body d).1 = Uncaught msg
  ∧ users (register_options rnd body d).2 !! name
    = Some (default {| username := name; passkeys := [] |} (users d !! name))
  ∧ regOptions (register_options rnd body d).2 = regOptions d
  ∧ authOptions (register_options rnd body d).2 = authOptions d.
Proof.
  intros Hb Hne Hg. unfold register_options.
  rewrite Hb, (truthy_intro name Hne).
  pose proof (getOrCreateUser_lookup name d) as Hl.
  pose proof (getOrCreateUser_caches name d) as [Hr Ha].
  assert ((getOrCreateUser name d).1
          = default {| username := name; passkeys := [] |} (users d !! name)) as Hd.
  { unfold getOrCreateUser. by destruct (users d !! name). }
  destruct (getOrCreateUser name d) as [u d1]; simpl in *.
  rewrite Hg. simpl. by rewrite Hl, Hd.
Qed.

(** ** Pending challenges *)

(** X10: the challenge an options reply hands to the client is the one
    pending for the name afterwards, the user exists afterwards, and a
    login challenge is only ever handed out for a user with a passkey. *)
Theorem issued_challenge_is_pending k rnd body d name c :
  body_username body = Some name →
  issued_challenge (begin k rnd body d).1 = Some c →
  pending_challenge k name (begin k rnd body d).2 = Some c
  ∧ is_Some (users (begin k rnd body d).2 !! name)
  ∧ match k with
    | Registration => True
    | Authentication => passkeys_of name d ≠ []
    end.
Proof.
  intros Hb Hc.
  destruct (begin_issued k rnd body d name c Hb Hc) as (_ & Hp & Hu & _).
  split; [done|]. split; [done|].
  destruct k; [done|]. revert Hc. simpl. unfold login_options, passkeys_of.
  rewrite Hb. destruct (truthy (Some name)) as [n|] eqn:Hn; [|done].
  apply truthy_Some in Hn as [[= <-] _].
  destruct (users d !! name) as [user|]; [|done]. simpl.
  by destruct (passkeys user).
Qed.

(** X11: in every state the server reaches, a pending challenge belongs
    to an existing user, and a pending authentication challenge to a
    user with at least one passkey. *)
Theorem pending_implies_user k d name c :
  reachable d →
  pending_challenge k name d = Some c →
  is_Some (users d !! name)
  ∧ match k with
    | Registration => True
    | Authentication => passkeys_of name d ≠ []
    end.
Proof.
  intros Hd Hp. apply reachable_consistent in Hd as [Hreg Hauth].
  destruct k; simpl in Hp.
  - apply fmap_Some in Hp as (o & Ho & _). split; [|done]. apply Hreg. by eauto.
  - apply fmap_Some in Hp as (o & Ho & _).
    assert (passkeys_of name d ≠ []) as Hpk by (apply Hauth; by eauto).
    split; [|done]. unfold passkeys_of in Hpk.
    destruct (users d !! name); [by eauto | done].
Qed.

(** ** A registration followed by options requests *)

(** X12: after a registration finish that stored a passkey, the next
    options requests for the name, of either kind, reach the generator
    with the passkeys on file before followed by the new one: the new
    credential is last in [excludeCredentials] and in
    [allowCredentials], and a login options request is no longer turned
    down for want of a passkey. *)
Theorem registered_then_listed body body' d name cred user opts v pk rnd :
  body_username body = Some name → name ≠ "" →
  body_credential body = Some cred →
  users d !! name = Some user →
  regOptions d !! name = Some opts →
  verifyRegistrationResponse (verify_registration_opts cred opts) = Resolved v →
  registered_passkey v = Some pk →
  body_username body' = Some name →
  let d' := (register_verify body d).2 in
  let user' := {| username := username user; passkeys := passkeys user ++ [pk] |} in
  gr_excludeCredentials (registration_opts name user')
  = (descriptors (passkeys user)
     ++ [ {| desc_id := pk_id pk; desc_transports := pk_transports pk |} ])%list
  ∧ ga_allowCredentials (authentication_opts user')
    = gr_excludeCredentials (registration_opts name user')
  ∧ register_options rnd body' d'
    = match generateRegistrationOptions (registration_opts name user') rnd with
      | Rejected m => (Uncaught m, d')
      | Resolved o => (ReplyRegOptions o, set_regOptions (insert name o) d')
      end
  ∧ login_options rnd body' d'
    = match generateAuthenticationOptions (authentication_opts user') rnd with
      | Resolved o => (ReplyAuthOptions o, set_authOptions (insert name o) d')
      | Rejected m => (Reply400 m, d')
      end.
Proof.
  intros Hb Hne Hc Hu Ho Hv Hpk Hb' d' user'.
  assert (truthy (body_username body) = Some name) as Ht
    by (rewrite Hb; by apply truthy_intro).
  assert (users d' !! name = Some user') as Hu'.
  { unfold d'. rewrite (register_verify_reached body d name cred user opts Ht Hc Hu Ho).
    rewrite Hv. simpl. rewrite Hpk. simpl. apply lookup_insert_eq. }
  split; [|split; [done|split]].
  - simpl. unfold descriptors. by rewrite map_app.
  - unfold register_options. rewrite Hb', (truthy_intro name Hne).
    unfold getOrCreateUser. by rewrite Hu'.
  - unfold login_options. rewrite Hb', (truthy_intro name Hne), Hu'.
    simpl. by destruct (passkeys user).
Qed.

End Further.

(** ** The further properties on runs with [demoLib] *)

Lemma users_keyed_by_name_witness :
  username {| username := "alice"; passkeys := [k1_stored 5] |} = "alice"
  ∧ "alice" ≠ "".
Proof.
  exact (users_keyed_by_name (lib := demoLib 5 N.succ)
           (demo 5 N.succ alice_registers) "alice"
           {| username := "alice"; passkeys := [k1_stored 5] |}
           (demo_reachable 5 N.succ alice_registers)
           ltac:(vm_compute; reflexivity)).
Defined.

(** alice finishes her second registration on the server that has also
    served bob and on the one that has not: bob's entries are left
    alone, and alice gets the same answer and the same entries. *)
Lemma request_touches_own_user_witness :
  let d := demo 5 N.succ alice_and_bob in
  let d' := demo 5 N.succ alice_alone in
  let r := RegisterVerify (with_credential "alice" "k2" "c5") in
  agree_on "bob" (handle (lib := demoLib 5 N.succ) r d).2 d
  ∧ (handle (lib := demoLib 5 N.succ) r d).1 = (handle (lib := demoLib 5 N.succ) r d').1
  ∧ agree_on "alice" (handle (lib := demoLib 5 N.succ) r d).2
      (handle (lib := demoLib 5 N.succ) r d').2.
Proof.
  intros d d' r.
  destruct (request_touches_own_user (lib := demoLib 5 N.succ) r d d' "bob")
    as (Hbob & Hreply & Halice).
  - discriminate.
  - intros name [= <-]. repeat split; vm_compute; reflexivity.
  - split; [exact Hbob|]. split; [exact Hreply|]. by apply Halice.
Defined.

Lemma passkeys_persist_witness :
  ∃ user' pk',
    users (run (lib := demoLib 5 N.succ) alice_logs_in
             (demo 5 N.succ alice_registers)) !! "alice" = Some user'
    ∧ passkeys user' !! 0 = Some pk'
    ∧ same_key (k1_stored 5) pk'.
Proof.
  exact (passkeys_persist (lib := demoLib 5 N.succ) alice_logs_in
           (demo 5 N.succ alice_registers) "alice"
           {| username := "alice"; passkeys := [k1_stored 5] |} 0 (k1_stored 5)
           ltac:(vm_compute; reflexivity) eq_refl).
Defined.

Lemma duplicate_id_shadowed_witness :
  ∃ user',
    users (run (lib := demoLib 5 N.succ) alice_logs_in
             (demo 5 N.succ alice_registers_twice)) !! "alice" = Some user'
    ∧ passkeys user' !! 1 = Some (k1_stored 5).
Proof.
  exact (duplicate_id_shadowed (lib := demoLib 5 N.succ) alice_logs_in
           (demo 5 N.succ alice_registers_twice) "alice"
           {| username := "alice"; passkeys := [k1_stored 5; k1_stored 5] |}
           0 1 (k1_stored 5) (k1_stored 5)
           ltac:(vm_compute; reflexivity) eq_refl eq_refl ltac:(lia) eq_refl).
Defined.

(** The login above moves the counter of the first "k1" to 6 and leaves
    the second at 5. *)
Example duplicate_id_counters :
  pk_counter <$> passkeys_of "alice"
     (run (lib := demoLib 5 N.succ) alice_logs_in
        (demo 5 N.succ alice_registers_twice))
  = [6%N; 5%N].
Proof. vm_compute. reflexivity. Qed.

Lemma refused_requests_keep_users_witness :
  let d := demo 5 N.succ alice_begins_login in
  let r := LoginVerify (with_credential "alice" "k1" "stale") in
  users (handle (lib := demoLib 5 N.succ) r d).2 = users d.
Proof.
  intros d r.
  exact (refused_requests_keep_users (lib := demoLib 5 N.succ) r d
           ltac:(vm_compute; reflexivity)).
Defined.

Lemma no_username_no_effect_witness :
  let d := demo 5 N.succ alice_begins in
  handle (lib := demoLib 5 N.succ) (RegisterOptions "c9" (only_username "")) d
  = (Reply400 "Falta username", d).
Proof.
  intros d.
  exact (no_username_no_effect (lib := demoLib 5 N.succ)
           (RegisterOptions "c9" (only_username "")) d eq_refl).
Defined.

Lemma login_verify_unknown_credential_witness :
  let d := demo 5 N.succ alice_begins_login in
  login_verify (lib := demoLib 5 N.succ) (with_credential "alice" "k7" "c2") d
  = (Reply400 "Credencial no encontrada", set_authOptions (delete "alice") d).
Proof.
  intros d.
  apply (login_verify_unknown_credential (lib := demoLib 5 N.succ)
           (with_credential "alice" "k7" "c2") d "alice"
           {| cj_id := Some "k7"; cj_response := "c2" |}
           {| username := "alice"; passkeys := [k1_stored 5] |}
           alice_login_options).
  - reflexivity.
  - discriminate.
  - reflexivity.
  - vm_compute; reflexivity.
  - vm_compute; reflexivity.
  - intros pk ->%list_elem_of_singleton. discriminate.
Defined.

Lemma register_options_uncaught_witness :
  (register_options (lib := brokenLib) "c1" (only_username "alice") db0).1
  = Uncaught "generator failed"
  ∧ users (register_options (lib := brokenLib) "c1" (only_username "alice") db0).2
      !! "alice"
    = Some (default {| username := "alice"; passkeys := [] |} (users db0 !! "alice"))
  ∧ regOptions (register_options (lib := brokenLib) "c1" (only_username "alice") db0).2
    = regOptions db0
  ∧ authOptions (register_options (lib := brokenLib) "c1" (only_username "alice") db0).2
    = authOptions db0.
Proof.
  exact (register_options_uncaught (lib := brokenLib) "c1" (only_username "alice")
           db0 "alice" "generator failed" eq_refl ltac:(discriminate) eq_refl).
Defined.

Lemma issued_challenge_is_pending_witness :
  let d := demo 5 N.succ alice_registers in
  let body := only_username "alice" in
  pending_challenge Authentication "alice"
    (begin (lib := demoLib 5 N.succ) Authentication "c2" body d).2 = Some "c2"
  ∧ is_Some (users (begin (lib := demoLib 5 N.succ) Authentication "c2" body d).2
               !! "alice")
  ∧ passkeys_of "alice" d ≠ [].
Proof.
  intros d body.
  exact (issued_challenge_is_pending (lib := demoLib 5 N.succ) Authentication "c2"
           body d "alice" "c2" eq_refl ltac:(vm_compute; reflexivity)).
Defined.

Lemma pending_implies_user_witness :
  let d := demo 5 N.succ alice_begins_login in
  is_Some (users d !! "alice") ∧ passkeys_of "alice" d ≠ [].
Proof.
  intros d.
  exact (pending_implies_user (lib := demoLib 5 N.succ) Authentication d "alice" "c2"
           (demo_reachable 5 N.succ alice_begins_login)
           ltac:(vm_compute; reflexivity)).
Defined.

Lemma registered_then_listed_witness :
  let d := demo 5 N.succ alice_begins in
  let body := with_credential "alice" "k1" "c1" in
  let d' := (register_verify (lib := demoLib 5 N.succ) body d).2 in
  login_options (lib := demoLib 5 N.succ) "c2" body d'
  = (ReplyAuthOptions alice_login_options,
     set_authOptions (insert "alice" alice_login_options) d').
Proof.
  intros d body d'.
  exact (proj2 (proj2 (proj2
           (registered_then_listed (lib := demoLib 5 N.succ) body body d "alice"
              {| cj_id := Some "k1"; cj_response := "c1" |}
              {| username := "alice"; passkeys := [] |}
              alice_registration_options
              {| reg_verified := true;
                 registrationInfo :=
                   Some {| credential :=
                             {| cred_id := "k1"; cred_publicKey := [];
                                cred_counter := 5; cred_transports := None |};
                           credentialDeviceType := singleDevice;
                           credentialBackedUp := false |} |}
              (k1_stored 5) "c2"
              eq_refl ltac:(discriminate) eq_refl
              ltac:(vm_compute; reflexivity) ltac:(vm_compute; reflexivity)
              ltac:(vm_compute; reflexivity) eq_refl eq_refl)))).
Defined.

(** * Configuration *)

Example config_without_environment : configFromEnv ∅ = demoConfig.
Proof. vm_compute. reflexivity. Qed.

Example origins_with_blanks :
  parse_origins " https://a.example ,https://b.example, "
  = ["https://a.example"; "https://b.example"; ""].
Proof. vm_compute. reflexivity. Qed.

Section TrimFacts.
Variable w1 : ascii → bool.
Variable w2 : ascii → ascii → bool.
Variable w3 : ascii → ascii → ascii → bool.

Lemma trim_front_spec n l :
  (length l ≤ n)%nat →
  trim_front w1 w2 w3 l `suffix_of` l
  ∧ leads w1 w2 w3 (trim_front w1 w2 w3 l) = false.
Proof.
  revert l. induction n as [|n IH]; intros l Hlen.
  { destruct l; [|simpl in Hlen; lia]. by split. }
  destruct l as [|a l1]; [by split|]. simpl in Hlen. simpl.
  destruct (w1 a) eqn:Ha.
  { destruct (IH l1) as [Hs Hl]; [lia|]. split; [by apply suffix_cons_r | done]. }
  destruct l1 as [|b l2]; [split; [done | simpl; by rewrite Ha]|].
  simpl in Hlen. destruct (w2 a b) eqn:Hb.
  { destruct (IH l2) as [Hs Hl]; [lia|].
    split; [by do 2 apply suffix_cons_r | done]. }
  destruct l2 as [|c l3]; [split; [done | simpl; by rewrite Ha, Hb]|].
  simpl in Hlen. destruct (w3 a b c) eqn:Hc.
  { destruct (IH l3) as [Hs Hl]; [lia|].
    split; [by do 3 apply suffix_cons_r | done]. }
  split; [done | simpl; by rewrite Ha, Hb, Hc].
Qed.

Lemma trim_front_suffix l : trim_front w1 w2 w3 l `suffix_of` l.
Proof. by apply (trim_front_spec (length l)). Qed.

Lemma trim_front_leads l : leads w1 w2 w3 (trim_front w1 w2 w3 l) = false.
Proof. by apply (trim_front_spec (length l)). Qed.

Lemma trim_front_id l : leads w1 w2 w3 l = false → trim_front w1 w2 w3 l = l.
Proof.
  destruct l as [|a [|b [|c l3]]]; simpl; [done|..].
  - by destruct (w1 a).
  - destruct (w1 a); [done|]. by destruct (w2 a b).
  - destruct (w1 a); [done|]. destruct (w2 a b); [done|]. by destruct (w3 a b c).
Qed.

Lemma leads_prefix p l :
  p `prefix_of` l → leads w1 w2 w3 p = true → leads w1 w2 w3 l = true.
Proof.
  intros [k ->]. destruct p as [|a [|b [|c p3]]]; simpl; [done|..].
  - rewrite !orb_false_r. intros ->. done.
  - rewrite !orb_false_r. intros H. apply orb_true_iff in H as [->| ->]; [done|].
    by rewrite orb_true_r.
  - done.
Qed.

End TrimFacts.

Lemma trim_prefix_suffix l : ∃ front back, l = (front ++ trim l ++ back)%list.
Proof.
  unfold trim, trimEnd.
  destruct (trim_front_suffix white1 white2 white3 l) as [front Hf].
  fold (trimStart l) in Hf |- *.
  destruct (trim_front_suffix white1 (λ a b, white2 b a) (λ a b c, white3 c b a)
              (reverse (trimStart l))) as [back Hb].
  exists front, (reverse back).
  rewrite <- reverse_app, <- Hb, reverse_involutive. exact Hf.
Qed.

Lemma trim_no_leading l : leads white1 white2 white3 (trim l) = false.
Proof.
  destruct (leads white1 white2 white3 (trim l)) eqn:Hl; [|done].
  assert (trim l `prefix_of` trimStart l) as Hp.
  { unfold trim, trimEnd. apply prefix_suffix_reverse.
    rewrite reverse_involutive. apply trim_front_suffix. }
  pose proof (leads_prefix _ _ _ _ _ Hp Hl) as Hs.
  unfold trimStart in Hs. by rewrite trim_front_leads in Hs.
Qed.

Lemma trim_no_trailing l :
  leads white1 (λ a b, white2 b a) (λ a b c, white3 c b a) (reverse (trim l)) = false.
Proof. unfold trim, trimEnd. rewrite reverse_involutive. apply trim_front_leads. Qed.

Lemma trim_id l :
  leads white1 white2 white3 l = false →
  leads white1 (λ a b, white2 b a) (λ a b c, white3 c b a) (reverse l) = false →
  trim l = l.
Proof.
  intros Hl Ht. unfold trim, trimStart, trimEnd.
  rewrite (trim_front_id _ _ _ l Hl), (trim_front_id _ _ _ _ Ht).
  apply reverse_involutive.
Qed.

Lemma chars_app s1 s2 : chars (s1 +:+ s2) = (chars s1 ++ chars s2)%list.
Proof. induction s1 as [|a s1 IH]; simpl; [done | by rewrite IH]. Qed.

Lemma chars_inj s1 s2 : chars s1 = chars s2 → s1 = s2.
Proof.
  intros Heq. rewrite <- (String.string_of_list_ascii_of_string s1),
    <- (String.string_of_list_ascii_of_string s2). by rewrite Heq.
Qed.

Lemma split_comma_nonempty l : split_comma l ≠ [].
Proof.
  induction l as [|a l IH]; simpl; [done|].
  destruct (decide _); [done|]. by destruct (split_comma l).
Qed.

Lemma split_comma_length l :
  length (split_comma l) = S (length (filter (λ a, a = ","%char) l)).
Proof.
  induction l as [|a l IH]; simpl; [done|].
  rewrite filter_cons. destruct (decide (a = ","%char)); simpl; [by rewrite IH|].
  pose proof (split_comma_nonempty l).
  destruct (split_comma l); [done|]. simpl in *. done.
Qed.

Lemma split_comma_pieces l piece :
  piece ∈ split_comma l → ","%char ∉ piece.
Proof.
  revert piece. induction l as [|a l IH]; intros piece; simpl.
  - intros ->%list_elem_of_singleton. apply not_elem_of_nil.
  - destruct (decide (a = ","%char)) as [->|Hne].
    + intros [->|Hin]%elem_of_cons; [apply not_elem_of_nil | by apply IH].
    + pose proof (split_comma_nonempty l).
      destruct (split_comma l) as [|p ps]; [done|].
      intros [->|Hin]%elem_of_cons.
      * intros [?|Hp]%elem_of_cons; [done|]. revert Hp. apply IH. by left.
      * apply IH. by right.
Qed.

Lemma split_comma_plain piece :
  ","%char ∉ piece → split_comma piece = [piece].
Proof.
  induction piece as [|a l IH]; simpl; [done|].
  intros Hn. apply not_elem_of_cons in Hn as [Ha Hl].
  destruct (decide (a = ","%char)); [done|]. by rewrite (IH Hl).
Qed.

Lemma split_comma_app piece rest :
  ","%char ∉ piece →
  split_comma (piece ++ ","%char :: rest) = piece :: split_comma rest.
Proof.
  induction piece as [|a l IH]; simpl.
  - intros _. first [done | by case_decide].
  - intros Hn. apply not_elem_of_cons in Hn as [Ha Hl].
    destruct (decide (a = ","%char)); [done|]. by rewrite (IH Hl).
Qed.

Lemma split_comma_join l :
  l ≠ [] →
  Forall (λ o, ","%char ∉ chars o) l →
  split_comma (chars (join_comma l)) = chars <$> l.
Proof.
  intros Hne Hall. induction Hall as [|o l Ho Hall IH]; [done|].
  destruct l as [|o' l'].
  - simpl. by apply split_comma_plain.
  - change (join_comma (o :: o' :: l')) with (o +:+ "," +:+ join_comma (o' :: l')).
    rewrite !chars_app. simpl.
    rewrite (split_comma_app _ _ Ho), IH; done.
Qed.

Lemma env_or_nonempty value fallback : fallback ≠ "" → env_or value fallback ≠ "".
Proof.
  intros Hf. unfold env_or. destruct (truthy value) as [s|] eqn:Hs; simpl; [|done].
  by apply truthy_Some in Hs as [_ ?].
Qed.

(** X13: whatever the environment holds, [rpID] is not empty, [ORIGINS]
    has one entry more than the configured text has commas (so at least
    one), and no entry starts or ends with white space or contains a
    comma. *)
Theorem config_well_formed env :
  rpID (Config := configFromEnv env) ≠ ""
  ∧ length (ORIGINS (Config := configFromEnv env))
    = S (commas (env_or (env !! "ORIGINS")
                   "http://localhost:3000,http://localhost:5173"))
  ∧ Forall (λ o, starts_with_space o = false
                 ∧ ends_with_space o = false
                 ∧ ","%char ∉ chars o)
      (ORIGINS (Config := configFromEnv env)).
Proof.
  simpl. split; [by apply env_or_nonempty|]. unfold parse_origins, commas.
  split; [by rewrite length_fmap, split_comma_length|].
  apply Forall_fmap, Forall_forall. intros piece Hin. simpl.
  unfold starts_with_space, ends_with_space.
  rewrite String.list_ascii_of_string_of_list_ascii.
  split; [apply trim_no_leading|]. split; [apply trim_no_trailing|].
  destruct (trim_prefix_suffix piece) as (front & back & Heq).
  intros Hc. apply (split_comma_pieces _ _ Hin). rewrite Heq.
  apply elem_of_app. right. apply elem_of_app. by left.
Qed.

(** X14: origins written one after the other with commas between them
    are read back as they were written, provided the text is not empty
    and no origin starts or ends with white space or contains a
    comma. *)
Theorem origins_round_trip env l :
  join_comma l ≠ "" →
  Forall (λ o, starts_with_space o = false
               ∧ ends_with_space o = false
               ∧ ","%char ∉ chars o) l →
  ORIGINS (Config := configFromEnv (<["ORIGINS" := join_comma l]> env)) = l.
Proof.
  intros Hne Hall. simpl. rewrite lookup_insert_eq.
  unfold env_or. rewrite (truthy_intro _ Hne). simpl. unfold parse_origins.
  assert (l ≠ []) as Hl by (by intros ->).
  rewrite split_comma_join; [|done|by eapply Forall_impl; [done|]; intros ? (_ & _ & ?)].
  rewrite <- list_fmap_compose. rewrite <- (list_fmap_id l) at 2.
  apply Forall_fmap_ext. eapply Forall_impl; [exact Hall|].
  intros o (Hs & He & _). simpl. rewrite trim_id by done.
  apply String.string_of_list_ascii_of_string.
Qed.

(** X15: a variable set to the empty string counts as not set. *)
Theorem empty_variable_is_unset env name :
  configFromEnv (<[name := ""]> env) = configFromEnv (delete name env).
Proof.
  unfold configFromEnv.
  assert (∀ key, truthy (<[name := ""]> env !! key) = truthy (delete name env !! key))
    as Hkey.
  { intros key. destruct (decide (name = key)) as [->|Hne].
    - by rewrite lookup_insert_eq, lookup_delete_eq.
    - by rewrite lookup_insert_ne, lookup_delete_ne. }
  unfold env_or. by rewrite !Hkey.
Qed.

Lemma origins_round_trip_witness :
  ORIGINS (Config := configFromEnv (<["ORIGINS" := "https://a.example,https://b.example"]> ∅))
  = ["https://a.example"; "https://b.example"].
Proof.
  apply (origins_round_trip ∅ ["https://a.example"; "https://b.example"]).
  - discriminate.
  - do 2 (constructor; [repeat split; compute_done|]). constructor.
Defined.

(** * The catch-all route *)

Lemma until_slash_word word s :
  "/"%char ∉ chars word →
  match strip_prefix word s with
  | Some "" => true
  | Some (String c _) => bool_decide (c = "/"%char)
  | None => false
  end = true
  ↔ until_slash s = word.
Proof.
  revert s. induction word as [|a word IH]; intros s Hw; simpl.
  - destruct s as [|c s']; simpl; [done|].
    destruct (decide (c = "/"%char)) as [->|Hc].
    + by rewrite bool_decide_eq_true.
    + rewrite bool_decide_eq_true. split; [done | discriminate].
  - simpl in Hw. apply not_elem_of_cons in Hw as [Ha Hw].
    destruct s as [|b s']; simpl; [split; discriminate|].
    destruct (decide (a = b)) as [<-|Hab].
    + destruct (decide (a = "/"%char)) as [->|_]; [done|].
      rewrite (IH s' Hw). split; [by intros -> | by intros [= ->]].
    + split; [discriminate|]. destruct (decide (b = "/"%char)); [discriminate|].
      by intros [= -> _].
Qed.

Lemma api_path_first_segment path :
  api_path path = true ↔ ∃ word, word ∈ api_words ∧ first_segment path = Some word.
Proof.
  unfold api_path. rewrite existsb_exists. split.
  - intros (word & Hin & Hm). exists word. apply list_elem_of_In in Hin.
    split; [done|]. revert Hm.
    assert ("/"%char ∉ chars word) as Hw.
    { unfold api_words in Hin. rewrite !elem_of_cons in Hin.
      destruct Hin as [->|[->|[->|[->|Hnil]]]];
        [compute_done.. | by apply elem_of_nil in Hnil]. }
    destruct path as [|c rest]; simpl; [done|].
    destruct (decide ("/"%char = c)) as [<-|Hc]; [|done].
    rewrite (until_slash_word word rest Hw). simpl. by intros ->.
  - intros (word & Hin & Hseg). exists word. split; [by apply list_elem_of_In|].
    assert ("/"%char ∉ chars word) as Hw.
    { unfold api_words in Hin. rewrite !elem_of_cons in Hin.
      destruct Hin as [->|[->|[->|[->|Hnil]]]];
        [compute_done.. | by apply elem_of_nil in Hnil]. }
    destruct path as [|c rest]; simpl in *; [done|].
    destruct (decide (c = "/"%char)) as [->|Hc]; [|done].
    injection Hseg as Hseg. simpl.
    by apply (until_slash_word word rest Hw).
Qed.

(** X16: the catch-all route (index.html) takes a path exactly when its
    first segment is none of register, login, debug and healthz: it
    takes /registered and /login.html, the root and paths without a
    leading slash, and it leaves alone every path at or below
    /register, /login, /debug and /healthz. *)
Theorem catch_all_first_segment path :
  catch_all path = true
  ↔ ∀ word, word ∈ api_words → first_segment path ≠ Some word.
Proof.
  unfold catch_all. rewrite negb_true_iff, <- not_true_iff_false.
  rewrite api_path_first_segment. split.
  - intros Hn word Hin Hseg. apply Hn. by eauto.
  - intros Hall (word & Hin & Hseg). by apply (Hall word).
Qed.

Example catch_all_routes :
  catch_all <$> ["/register/options"; "/register/verify"; "/login/options";
                 "/login/verify"; "/debug/users"; "/healthz"; "/login";
                 "/"; "/registered"; "/login.html"; "/static/js/main.js"; ""]
  = [false; false; false; false; false; false; false;
     true; true; true; true; true].
Proof. vm_compute. reflexivity. Qed.

(** * The front end against the server *)

Section FrontEndFacts.
Context {lib : SimpleWebAuthn} {cfg : Config} {express : Framework} {browser : Browser}.

(** What [postJSON] makes of the answers the handlers send themselves:
    a 400 becomes the error thrown, with the server's text as message,
    or "HTTP 400" when that text is empty. *)
Lemma postJSON_exchange reply :
  match reply with
  | ReplyRegOptions o => postJSON (exchange reply) = Resolved (Some (JsonRegOptions o))
  | ReplyAuthOptions o => postJSON (exchange reply) = Resolved (Some (JsonAuthOptions o))
  | ReplyVerified v => postJSON (exchange reply) = Resolved (Some (JsonVerified v))
  | Reply400 e => postJSON (exchange reply) = Rejected (env_or (Some e) "HTTP 400")
  | Uncaught m => postJSON (exchange reply) = postJSON (on_uncaught m)
  end.
Proof. by destruct reply. Qed.

Lemma register_verify_never_uncaught body d m :
  (register_verify body d).1 ≠ Uncaught m.
Proof.
  unfold register_verify.
  destruct (truthy _) as [n|]; [|done].
  destruct (body_credential body) as [cred|]; [|done].
  destruct (users d !! n) as [u|]; [|done].
  destruct (regOptions d !! n) as [opts|]; [|done].
  simpl. by destruct (verifyRegistrationResponse _).
Qed.

Lemma login_verify_never_uncaught body d m :
  (login_verify body d).1 ≠ Uncaught m.
Proof.
  unfold login_verify.
  destruct (truthy _) as [n|]; [|done].
  destruct (body_credential body) as [cred|]; [|done].
  destruct (users d !! n) as [u|]; [|done].
  destruct (authOptions d !! n) as [opts|]; [|done].
  simpl. destruct (find_passkey cred (passkeys u)) as [[i pk]|]; [|done].
  by destruct (verifyAuthenticationResponse _).
Qed.

(** A verify answer that [postJSON] resolves with a true [verified]
    member is [{ verified: true }]. *)
Lemma verified_member_reply reply v :
  (∀ m, reply ≠ Uncaught m) →
  postJSON (exchange reply) = Resolved v →
  verified_member v = true →
  reply = ReplyVerified true.
Proof.
  intros Hun. pose proof (postJSON_exchange reply) as Hp.
  destruct reply as [o|o|b|e|m]; rewrite Hp; try (by intros [= <-]).
  - intros [= <-]. simpl. by intros ->.
  - by destruct (Hun m).
Qed.

Lemma register_options_passkeys rnd body d name :
  passkeys_of name (register_options rnd body d).2 = passkeys_of name d.
Proof.
  unfold passkeys_of, register_options.
  destruct (truthy _) as [n|]; [|done].
  assert (from_option passkeys [] (users (getOrCreateUser n d).2 !! name)
          = from_option passkeys [] (users d !! name)) as Hg.
  { unfold getOrCreateUser. destruct (users d !! n) eqn:Hn; simpl; [done|].
    destruct (decide (n = name)) as [->|Hne].
    - by rewrite lookup_insert_eq, Hn.
    - by rewrite lookup_insert_ne. }
  destruct (getOrCreateUser n d) as [u d1]; simpl in Hg.
  by destruct (generateRegistrationOptions _ _).
Qed.

Lemma register_verify_true body d name :
  (∀ a v, verifyRegistrationResponse a = Resolved v →
     reg_verified v = true → is_Some (registrationInfo v)) →
  body_username body = Some name →
  (register_verify body d).1 = ReplyVerified true →
  pending_challenge Registration name (register_verify body d).2 = None
  ∧ ∃ pk, passkeys_of name (register_verify body d).2
          = (passkeys_of name d ++ [pk])%list.
Proof.
  intros Hinfo Hb. unfold register_verify, passkeys_of. rewrite Hb.
  destruct (truthy (Some name)) as [n|] eqn:Hn; [|done].
  apply truthy_Some in Hn as [[= <-] _].
  destruct (body_credential body) as [cred|]; [|done].
  destruct (users d !! name) as [u|] eqn:Hu; [|done].
  destruct (regOptions d !! name) as [opts|]; [|done].
  simpl. destruct (verifyRegistrationResponse _) as [v|msg] eqn:Hv; simpl; [|done].
  intros [= Hver]. rewrite lookup_delete_eq. split; [done|].
  destruct (Hinfo _ v Hv Hver) as [info Hi].
  unfold registered_passkey. rewrite Hver, Hi. simpl.
  rewrite lookup_insert_eq. simpl. by eauto.
Qed.

Lemma run_passkeys_frame rs d name :
  (∀ r, r ∈ rs → body_username (request_body r) ≠ Some name) →
  passkeys_of name (run rs d) = passkeys_of name d.
Proof.
  intros Hrs. destruct (run_frame rs d name Hrs) as (Hu & _).
  unfold passkeys_of. by rewrite Hu.
Qed.

(** X17: the front end shows "Passkey registrada" only when the server
    has stored a passkey for the name in the input field: with a
    verifier whose verified results carry [registrationInfo], the
    passkeys of that name are afterwards the ones on file when the
    verify request arrived followed by a new one, and no registration
    challenge is pending for it.  Other pages may have been served
    while the prompt was open; if none of their requests was for this
    name, the passkeys on file when the verify request arrived are the
    ones on file at the click. *)
Theorem handleRegister_registered rnd name between d :
  (∀ a v, verifyRegistrationResponse a = Resolved v →
     reg_verified v = true → is_Some (registrationInfo v)) →
  last (handleRegister rnd name between d).1 = Some "✅ Passkey registrada" →
  let arrived := run between (register_options rnd (only_username name) d).2 in
  pending_challenge Registration name (handleRegister rnd name between d).2 = None
  ∧ (∃ pk, passkeys_of name (handleRegister rnd name between d).2
           = (passkeys_of name arrived ++ [pk])%list)
  ∧ ((∀ r, r ∈ between → body_username (request_body r) ≠ Some name) →
     passkeys_of name arrived = passkeys_of name d).
Proof.
  intros Hinfo. unfold handleRegister, only_username.
  pose proof (register_options_passkeys rnd
    {| body_username := Some name; body_credential := None |} d name) as Hsame.
  destruct (register_options _ _ d) as [reply1 d1]. simpl in Hsame. simpl.
  destruct (postJSON (exchange reply1)) as [options|m]; [|by intros [=]].
  destruct (startRegistration options) as [attResp|m]; [|by intros [=]].
  pose proof (register_verify_true
    {| body_username := Some name; body_credential := Some attResp |}
    (run between d1) name Hinfo eq_refl) as Htrue.
  pose proof (register_verify_never_uncaught
    {| body_username := Some name; body_credential := Some attResp |}
    (run between d1)) as Hun.
  destruct (register_verify _ (run between d1)) as [reply2 d2]. simpl in Htrue, Hun.
  destruct (postJSON (exchange reply2)) as [v|m] eqn:Hpost; [|by intros [=]].
  simpl. destruct (verified_member v) eqn:Hv; [|by intros [=]].
  intros _. destruct Htrue as [Hp Hpk];
    [by apply (verified_member_reply reply2 v)|].
  split; [done|]. split; [done|].
  intros Hrs. by rewrite (run_passkeys_frame between d1 name Hrs).
Qed.

(** X18: when the user cancels in the browser after the options have
    arrived, the front end reports the browser's error and never calls
    the verify route: the server has served the options request and
    the requests of other pages, nothing else; if none of those was for
    this name, the challenge just issued stays pending. *)
Theorem handleRegister_cancelled rnd name between d o m :
  (register_options rnd (only_username name) d).1 = ReplyRegOptions o →
  startRegistration (Some (JsonRegOptions o)) = Rejected m →
  handleRegister rnd name between d
  = (["📥 Pidiendo opciones de registro..."; "❌ Error en registro: " +:+ m],
     run between (register_options rnd (only_username name) d).2)
  ∧ ((∀ r, r ∈ between → body_username (request_body r) ≠ Some name) →
     pending_challenge Registration name (handleRegister rnd name between d).2
     = Some (reg_challenge o)).
Proof.
  intros Hreply Hcancel.
  assert (handleRegister rnd name between d
    = (["📥 Pidiendo opciones de registro..."; "❌ Error en registro: " +:+ m],
       run between (register_options rnd (only_username name) d).2)) as Heq.
  { unfold handleRegister, only_username in *.
    destruct (register_options _ _ d) as [reply1 d1]. simpl in Hreply.
    subst reply1. simpl. by rewrite Hcancel. }
  split; [done|]. intros Hrs. rewrite Heq. simpl.
  destruct (run_frame between (register_options rnd (only_username name) d).2
              name Hrs) as (_ & -> & _).
  apply (begin_issued Registration rnd (only_username name) d name (reg_challenge o));
    [done|]. simpl. by rewrite Hreply.
Qed.

(** X19: a login for a name that is unknown or has no passkey ends with
    the server's error text behind "Error en login: "; the browser's
    authenticator is not consulted, no prompt opens, and the tables of
    the server are as before. *)
Theorem handleLogin_without_passkey rnd name between d :
  name ≠ "" →
  passkeys_of name d = [] →
  handleLogin rnd name between d
  = (["📥 Pidiendo opciones de login...";
      "❌ Error en login: "
      +:+ match users d !! name with
          | None => "Usuario no existe"
          | Some _ => "Usuario sin passkeys"
          end], d).
Proof.
  intros Hne Hp. unfold handleLogin, login_options.
  cbn [body_username]. rewrite (truthy_intro name Hne). unfold passkeys_of in Hp.
  destruct (users d !! name) as [user|]; [|done].
  simpl in Hp. by rewrite Hp.
Qed.

(** X20: the front end shows "Login OK" only when the verifier has
    accepted an assertion for a passkey that was on file for the name
    in the input field when the verify request arrived, against the
    challenge pending for that name at that moment; no authentication
    challenge is pending afterwards.  Other pages may have been served
    while the prompt was open; if none of their requests was for this
    name, the user record is the one at the click and the pending
    options are the ones this login's own options request left. *)
Theorem handleLogin_ok rnd name between d :
  last (handleLogin rnd name between d).1 = Some "✅ Login OK" →
  let d1 := (login_options rnd (only_username name) d).2 in
  let arrived := run between d1 in
  pending_challenge Authentication name (handleLogin rnd name between d).2 = None
  ∧ (∃ user opts cred i pk v,
      users arrived !! name = Some user
      ∧ authOptions arrived !! name = Some opts
      ∧ find_passkey cred (passkeys user) = Some (i, pk)
      ∧ verifyAuthenticationResponse (verify_authentication_opts cred opts pk)
        = Resolved v
      ∧ auth_verified v = true)
  ∧ ((∀ r, r ∈ between → body_username (request_body r) ≠ Some name) →
     users arrived !! name = users d !! name
     ∧ authOptions arrived !! name = authOptions d1 !! name).
Proof.
  unfold handleLogin, only_username.
  pose proof (login_options_users rnd
    {| body_username := Some name; body_credential := None |} d) as Husers.
  destruct (login_options _ _ d) as [reply1 d1]. simpl in Husers. simpl.
  destruct (postJSON (exchange reply1)) as [options|m]; [|by intros [=]].
  destruct (startAuthentication options) as [asseResp|m]; [|by intros [=]].
  pose proof (login_verify_never_uncaught
    {| body_username := Some name; body_credential := Some asseResp |}
    (run between d1)) as Hun.
  destruct (login_verify _ (run between d1)) as [reply2 d2] eqn:Hlv. simpl in Hun.
  destruct (postJSON (exchange reply2)) as [v|m] eqn:Hpost; [|by intros [=]].
  simpl. destruct (verified_member v) eqn:Hv; [|by intros [=]].
  intros _. pose proof (verified_member_reply reply2 v Hun Hpost Hv) as ->.
  assert ((∀ r, r ∈ between → body_username (request_body r) ≠ Some name) →
          users (run between d1) !! name = users d !! name
          ∧ authOptions (run between d1) !! name = authOptions d1 !! name) as Hquiet.
  { intros Hrs. destruct (run_frame between d1 name Hrs) as (Hu & _ & Ha).
    by rewrite Hu, Ha, Husers. }
  revert Hlv. unfold login_verify. cbn [body_username body_credential].
  destruct (truthy (Some name)) as [n|] eqn:Hn; [|by intros [=]].
  apply truthy_Some in Hn as [[= <-] _].
  destruct (users (run between d1) !! name) as [user|] eqn:Hu; [|by intros [=]].
  destruct (authOptions (run between d1) !! name) as [opts|] eqn:Ho;
    [|by intros [=]].
  destruct (find_passkey asseResp (passkeys user)) as [[i pk]|] eqn:Hf;
    [|by intros [=]].
  destruct (verifyAuthenticationResponse _) as [w|msg] eqn:Hw; [|by intros [=]].
  simpl. intros [= Hver <-]. simpl. rewrite lookup_delete_eq.
  split; [by destruct (accepted_counter w)|]. split; [|done].
  exists user, opts, asseResp, i, pk, w. by rewrite Hw.
Qed.

End FrontEndFacts.

(** ** The front end on runs with [demoLib] *)

#[local] Existing Instance demoFramework.

Lemma demoLib_verified_has_info init next a v :
  verifyRegistrationResponse (SimpleWebAuthn := demoLib init next) a = Resolved v →
  reg_verified v = true → is_Some (registrationInfo v).
Proof.
  simpl. destruct (decide _); [|done]. intros [= <-] _. simpl. by eauto.
Qed.

(** While alice's prompt is open, bob asks for registration options. *)
Lemma handleRegister_registered_witness :
  let between := [RegisterOptions "c4" (only_username "bob")] in
  let final :=
    (handleRegister (lib := demoLib 5 N.succ) (browser := demoBrowser "k1")
       "c1" "alice" between db0).2 in
  let arrived :=
    run (lib := demoLib 5 N.succ) between
      (register_options (lib := demoLib 5 N.succ) "c1" (only_username "alice") db0).2 in
  pending_challenge Registration "alice" final = None
  ∧ (∃ pk, passkeys_of "alice" final = (passkeys_of "alice" arrived ++ [pk])%list)
  ∧ passkeys_of "alice" arrived = passkeys_of "alice" db0.
Proof.
  intros between final arrived.
  destruct (handleRegister_registered (lib := demoLib 5 N.succ)
              (browser := demoBrowser "k1") "c1" "alice" between db0
              (demoLib_verified_has_info 5 N.succ) ltac:(vm_compute; reflexivity))
    as (Hp & Hpk & Hquiet).
  split; [exact Hp|]. split; [exact Hpk|].
  apply Hquiet. intros r ->%list_elem_of_singleton. discriminate.
Defined.

Lemma handleRegister_cancelled_witness :
  let between := [RegisterOptions "c4" (only_username "bob")] in
  handleRegister (lib := demoLib 5 N.succ) (browser := cancellingBrowser)
    "c1" "alice" between db0
  = (["📥 Pidiendo opciones de registro...";
      "❌ Error en registro: " +:+ "The operation was cancelled"],
     run (lib := demoLib 5 N.succ) between
       (register_options (lib := demoLib 5 N.succ) "c1" (only_username "alice") db0).2)
  ∧ pending_challenge Registration "alice"
      (handleRegister (lib := demoLib 5 N.succ) (browser := cancellingBrowser)
         "c1" "alice" between db0).2
    = Some (reg_challenge alice_registration_options).
Proof.
  intros between.
  destruct (handleRegister_cancelled (lib := demoLib 5 N.succ) (cfg := demoConfig)
              (browser := cancellingBrowser) "c1" "alice" between db0
              alice_registration_options "The operation was cancelled"
              ltac:(vm_compute; reflexivity) eq_refl)
    as (Heq & Hquiet).
  split; [exact Heq|].
  apply Hquiet. intros r ->%list_elem_of_singleton. discriminate.
Defined.

Lemma handleLogin_without_passkey_witness :
  handleLogin (lib := demoLib 5 N.succ) (browser := demoBrowser "k1") "c2" "bob"
    [RegisterOptions "c4" (only_username "bob")] (demo 5 N.succ alice_registers)
  = (["📥 Pidiendo opciones de login..."; "❌ Error en login: Usuario no existe"],
     demo 5 N.succ alice_registers).
Proof.
  exact (handleLogin_without_passkey (lib := demoLib 5 N.succ)
           (browser := demoBrowser "k1") "c2" "bob"
           [RegisterOptions "c4" (only_username "bob")]
           (demo 5 N.succ alice_registers)
           ltac:(discriminate) ltac:(vm_compute; reflexivity)).
Defined.

Lemma handleLogin_ok_witness :
  let between := [RegisterOptions "c4" (only_username "bob")] in
  let d := demo 5 N.succ alice_registers in
  let d1 := (login_options (lib := demoLib 5 N.succ) "c2" (only_username "alice") d).2 in
  let arrived := run (lib := demoLib 5 N.succ) between d1 in
  pending_challenge Authentication "alice"
    (handleLogin (lib := demoLib 5 N.succ) (browser := demoBrowser "k1")
       "c2" "alice" between d).2 = None
  ∧ (∃ user opts cred i pk v,
      users arrived !! "alice" = Some user
      ∧ authOptions arrived !! "alice" = Some opts
      ∧ find_passkey cred (passkeys user) = Some (i, pk)
      ∧ verifyAuthenticationResponse (SimpleWebAuthn := demoLib 5 N.succ)
          (verify_authentication_opts cred opts pk) = Resolved v
      ∧ auth_verified v = true)
  ∧ users arrived !! "alice" = users d !! "alice"
  ∧ authOptions arrived !! "alice" = authOptions d1 !! "alice".
Proof.
  intros between d d1 arrived.
  destruct (handleLogin_ok (lib := demoLib 5 N.succ) (browser := demoBrowser "k1")
              "c2" "alice" between d ltac:(vm_compute; reflexivity))
    as (Hp & Hver & Hquiet).
  split; [exact Hp|]. split; [exact Hver|].
  apply Hquiet. intros r ->%list_elem_of_singleton. discriminate.
Defined.

(** A verifier error without a message reaches the user as "HTTP 400". *)
Example empty_error_text :
  postJSON (exchange (Reply400 "")) = Rejected "HTTP 400"
  ∧ postJSON (exchange (Reply400 "Usuario no existe")) = Rejected "Usuario no existe".
Proof. split; vm_compute; reflexivity. Qed.

(** A whole registration and a login through the front end. *)
Example alice_through_the_front_end :
  let '(shown1, d1) :=
    handleRegister (lib := demoLib 5 N.succ) (browser := demoBrowser "k1")
      "c1" "alice" [] db0 in
  let '(shown2, d2) :=
    handleLogin (lib := demoLib 5 N.succ) (browser := demoBrowser "k1")
      "c2" "alice" [] d1 in
  last shown1 = Some "✅ Passkey registrada"
  ∧ last shown2 = Some "✅ Login OK"
  ∧ pk_counter <$> passkeys_of "alice" d2 = [6%N].
Proof. vm_compute. repeat split; reflexivity. Qed.

(** * Verified answers and pending challenges *)

Section VerifiedAnswers.
Context {lib : SimpleWebAuthn} {cfg : Config}.

(** X21: a verify request is answered [{ verified: ... }], true or
    false, only if a challenge of its kind was pending for the name in
    its body; that challenge is consumed by the request. *)
Theorem verified_needs_pending k body d b :
  (finish k body d).1 = ReplyVerified b →
  ∃ name c,
    body_username body = Some name
    ∧ pending_challenge k name d = Some c
    ∧ pending_challenge k name (finish k body d).2 = None.
Proof.
  destruct k; simpl.
  - unfold register_verify.
    destruct (truthy _) as [n|] eqn:Hn; [|done].
    apply truthy_Some in Hn as [Hn _].
    destruct (body_credential body) as [cred|]; [|done].
    destruct (users d !! n) as [u|]; [|done].
    destruct (regOptions d !! n) as [opts|] eqn:Ho; [|done].
    simpl. intros _. exists n, (reg_challenge opts).
    by rewrite Ho, lookup_delete_eq.
  - unfold login_verify.
    destruct (truthy _) as [n|] eqn:Hn; [|done].
    apply truthy_Some in Hn as [Hn _].
    destruct (body_credential body) as [cred|]; [|done].
    destruct (users d !! n) as [u|]; [|done].
    destruct (authOptions d !! n) as [opts|] eqn:Ho; [|done].
    simpl. intros _. exists n, (auth_challenge opts).
    by rewrite Ho, lookup_delete_eq.
Qed.

End VerifiedAnswers.

Lemma verified_needs_pending_witness :
  let d := demo 5 N.succ alice_begins_login in
  let body := with_credential "alice" "k1" "c2" in
  ∃ name c,
    body_username body = Some name
    ∧ pending_challenge Authentication name d = Some c
    ∧ pending_challenge Authentication name
        (finish (lib := demoLib 5 N.succ) Authentication body d).2 = None.
Proof.
  intros d body.
  exact (verified_needs_pending (lib := demoLib 5 N.succ) Authentication body d true
           ltac:(vm_compute; reflexivity)).
Defined.

(** A second page of alice asks for registration options while the
    prompt of the first is open: the first page's answer is checked
    against the challenge of the second and turned down. *)
Example second_page_replaces_challenge :
  (handleRegister (lib := demoLib 5 N.succ) (browser := demoBrowser "k1")
     "c1" "alice" [RegisterOptions "c9" (only_username "alice")] db0).1
  = ["📥 Pidiendo opciones de registro...";
     "❌ Error en registro: Unexpected registration response challenge"].
Proof. vm_compute. reflexivity. Qed.
